(** * ps-ds-monitor: process and system status collection

    A shallow embedding of [src/ps-ds-monitor.py] (class [SystemMonitor]):
    the four process backends, the system snapshot collectors, the pager
    of [display_process_status] and the lines of
    [display_detailed_system_status]; and of the list of requirements that
    [src/setup.py] reads.

    Conventions of the embedding.
    - A Python [dict] with string keys is a [gmap string value]; a key that
      the dict does not have is a lookup that returns [None].
    - A Python exception is a constructor of [exn]; a call that may raise
      returns a [result].
    - A Python [float] is a [pyfloat]: a finite float is the rational it
      denotes, kept in lowest terms, next to the two infinities and NaN.
      Division by a power of two and decimal rounding are those of the exact
      value.
    - Text is ASCII: [str.strip], [str.split] and [str.isdigit] see the ASCII
      white space and the ASCII digits.
    - What the operating system or psutil hands to the program (command
      output, files, process attributes) is an explicit argument. *)

From Stdlib Require Import ZArith QArith Qround Qabs Lqa List Ascii String Permutation Sorted Lia Bool.
From stdpp Require Import gmap strings.

Open Scope string_scope.
Open Scope Z_scope.

(** ** Exceptions and results *)

Inductive exn : Type :=
| ValueError | IndexError | KeyError | TypeError | OSError
| ZeroDivisionError | CalledProcessError
| NoSuchProcess | AccessDenied | ZombieProcess.

Inductive result (A : Type) : Type :=
| Ok (a : A)
| Raise (e : exn).
Arguments Ok {A} a.
Arguments Raise {A} e.

Definition bind {A B : Type} (r : result A) (k : A -> result B) : result B :=
  match r with
  | Ok a => k a
  | Raise e => Raise e
  end.

Notation "'let*' x ':=' r 'in' k" := (bind r (fun x => k))
  (at level 10, x name, r at level 100, k at level 200).

Definition exn_eqb (a b : exn) : bool :=
  match a, b with
  | ValueError, ValueError | IndexError, IndexError | KeyError, KeyError
  | TypeError, TypeError | OSError, OSError
  | ZeroDivisionError, ZeroDivisionError
  | CalledProcessError, CalledProcessError
  | NoSuchProcess, NoSuchProcess | AccessDenied, AccessDenied
  | ZombieProcess, ZombieProcess => true
  | _, _ => false
  end.

(** ** Floats *)

Inductive pyfloat : Type :=
| Fin (q : Q)
| Inf (negative : bool)
| NaN.

Definition fin (q : Q) : pyfloat := Fin (Qred q).

Definition F0 : pyfloat := Fin 0.

(** [x < y] on floats; every comparison with NaN is false. *)
Definition float_ltb (x y : pyfloat) : bool :=
  match x, y with
  | Fin a, Fin b => match (a ?= b)%Q with Lt => true | _ => false end
  | Fin _, Inf neg => negb neg
  | Inf neg, Fin _ => neg
  | Inf a, Inf b => a && negb b
  | _, _ => false
  end.

Definition float_gtb (x y : pyfloat) : bool := float_ltb y x.

(** Truth value of a float: zero is false, everything else is true. *)
Definition float_truthy (x : pyfloat) : bool :=
  match x with
  | Fin q => negb (Qeq_bool q 0)
  | _ => true
  end.

(** [x / d] for a positive integer constant [d]. *)
Definition float_div_pos (x : pyfloat) (d : positive) : pyfloat :=
  match x with
  | Fin q => fin (q / (Zpos d # 1))
  | _ => x
  end.

(** Nearest integer to [q], ties to the even one. *)
Definition round_half_even (q : Q) : Z :=
  let fl := Qfloor q in
  let rest := (q - (fl # 1))%Q in
  match (rest ?= (1 # 2))%Q with
  | Lt => fl
  | Gt => fl + 1
  | Eq => if Z.even fl then fl else fl + 1
  end.

(** [round(x, ndigits)] on a float: the decimal with [ndigits] places that
    is nearest to the value of [x], ties to even; infinities and NaN are
    returned as they are. *)
Definition py_round (x : pyfloat) (ndigits : nat) : pyfloat :=
  match x with
  | Fin q =>
      let scale := Z.pow 10 (Z.of_nat ndigits) in
      fin (round_half_even (q * (scale # 1)) # Z.to_pos scale)
  | _ => x
  end.

(** [n / d] for integers, [d] positive: true division. *)
Definition int_truediv (n : Z) (d : positive) : pyfloat := fin (n # d).

(** ** Values *)

Inductive value : Type :=
| VNone
| VBool (b : bool)
| VInt (z : Z)
| VFloat (f : pyfloat)
| VStr (s : string)
| VFloats (l : list pyfloat)
| VCounts (d : gmap string Z).

(** ** Strings *)

Module Str.

(** White space of [str.strip()] and [str.split()], ASCII part:
    tab, line feed, vertical tab, form feed, carriage return, the four
    separators 28 to 31 and the space. *)
Definition is_space (c : ascii) : bool :=
  let n := nat_of_ascii c in
  ((9 <=? n) && (n <=? 13) || (28 <=? n) && (n <=? 32))%nat.

Definition is_digit (c : ascii) : bool :=
  let n := nat_of_ascii c in ((48 <=? n) && (n <=? 57))%nat.

Definition digit_val (c : ascii) : Z := Z.of_nat (nat_of_ascii c - 48).

Definition lower_char (c : ascii) : ascii :=
  let n := nat_of_ascii c in
  if ((65 <=? n) && (n <=? 90))%nat then ascii_of_nat (n + 32) else c.

(** [s.lower()] *)
Fixpoint lower (s : string) : string :=
  match s with
  | EmptyString => EmptyString
  | String c s' => String (lower_char c) (lower s')
  end.

Definition is_empty (s : string) : bool :=
  match s with EmptyString => true | _ => false end.

Fixpoint lstrip_by (p : ascii -> bool) (s : string) : string :=
  match s with
  | EmptyString => EmptyString
  | String c s' => if p c then lstrip_by p s' else s
  end.

Fixpoint rstrip_by (p : ascii -> bool) (s : string) : string :=
  match s with
  | EmptyString => EmptyString
  | String c s' =>
      let r := rstrip_by p s' in
      if p c && is_empty r then EmptyString else String c r
  end.

Definition strip_by (p : ascii -> bool) (s : string) : string :=
  rstrip_by p (lstrip_by p s).

(** [s.strip()] *)
Definition strip (s : string) : string := strip_by is_space s.

Fixpoint mem_char (c : ascii) (chars : string) : bool :=
  match chars with
  | EmptyString => false
  | String d chars' => Ascii.eqb c d || mem_char c chars'
  end.

(** [s.strip(chars)] *)
Definition strip_chars (chars s : string) : string :=
  strip_by (fun c => mem_char c chars) s.

(** [s.startswith(p)] *)
Definition startswith (p s : string) : bool := String.prefix p s.

(** [s.split(sep)] for a non-empty separator. [skip] counts the characters
    of a separator just matched that are still to be passed over. The head
    of the result is the piece in progress. *)
Fixpoint split_aux (sep : string) (skip : nat) (s : string) : list string :=
  match s with
  | EmptyString => [EmptyString]
  | String c s' =>
      match skip with
      | S k => split_aux sep k s'
      | O =>
          if String.prefix sep s
          then EmptyString :: split_aux sep (String.length sep - 1) s'
          else match split_aux sep 0 s' with
               | p :: ps => String c p :: ps
               | [] => [String c EmptyString]
               end
      end
  end.

Definition split (sep s : string) : list string := split_aux sep 0 s.

(** [s.replace(old, new)] for a non-empty [old]. *)
Fixpoint replace_aux (old new : string) (skip : nat) (s : string) : string :=
  match s with
  | EmptyString => EmptyString
  | String c s' =>
      match skip with
      | S k => replace_aux old new k s'
      | O =>
          if String.prefix old s
          then String.append new (replace_aux old new (String.length old - 1) s')
          else String c (replace_aux old new 0 s')
      end
  end.

Definition replace (old new s : string) : string := replace_aux old new 0 s.

(** [sub in s] *)
Fixpoint contains (sub s : string) : bool :=
  String.prefix sub s ||
  match s with
  | EmptyString => false
  | String _ s' => contains sub s'
  end.

(** [s.isdigit()] *)
Fixpoint all_digits (s : string) : bool :=
  match s with
  | EmptyString => true
  | String c s' => is_digit c && all_digits s'
  end.

Definition isdigit (s : string) : bool := negb (is_empty s) && all_digits s.

Definition cons_word (w : string) (ws : list string) : list string :=
  if is_empty w then ws else w :: ws.

(** [s.split()]: the pair is the word that starts at the head of [s]
    (empty when [s] starts with white space) and the words after it. *)
Fixpoint split_ws_aux (s : string) : string * list string :=
  match s with
  | EmptyString => (EmptyString, [])
  | String c s' =>
      let (w, ws) := split_ws_aux s' in
      if is_space c then (EmptyString, cons_word w ws)
      else (String c w, ws)
  end.

Definition split_ws (s : string) : list string :=
  let (w, ws) := split_ws_aux s in cons_word w ws.

(** [s.split(None, n)]: at most [n] words are cut off; what follows them,
    from its first character that is not white space to the end of [s], is
    the last element. [inword] tells whether the head of [s] continues a
    word; the first component is the rest of that word. *)
Fixpoint split_ws_max_aux (n : nat) (inword : bool) (s : string)
  : string * list string :=
  match s with
  | EmptyString => (EmptyString, [])
  | String c s' =>
      if inword then
        if is_space c then (EmptyString, snd (split_ws_max_aux n false s'))
        else let (w, ws) := split_ws_max_aux n true s' in (String c w, ws)
      else
        if is_space c then split_ws_max_aux n false s'
        else match n with
             | O => (EmptyString, [s])
             | S k =>
                 let (w, ws) := split_ws_max_aux k true s' in
                 (EmptyString, String c w :: ws)
             end
  end.

Definition split_ws_max (n : nat) (s : string) : list string :=
  snd (split_ws_max_aux n false s).

(** [sep.join(l)] *)
Fixpoint join (sep : string) (l : list string) : string :=
  match l with
  | [] => EmptyString
  | [x] => x
  | x :: l' => String.append x (String.append sep (join sep l'))
  end.

(** [l[i]] for a non-negative index. *)
Definition index {A : Type} (l : list A) (i : nat) : result A :=
  match nth_error l i with
  | Some x => Ok x
  | None => Raise IndexError
  end.

End Str.

(** ** [int(s)] and [float(s)] *)

Module Parse.

(** After a first digit: more digits, each of which may follow one
    underscore. Returns the value read, the number of digits read and the text
    that is left. *)
Fixpoint digits_aux (acc : Z) (n : nat) (s : string) : Z * nat * string :=
  match s with
  | String c s' =>
      if Str.is_digit c then digits_aux (10 * acc + Str.digit_val c) (S n) s'
      else if Ascii.eqb c "_"%char then
        match s' with
        | String d s'' =>
            if Str.is_digit d
            then digits_aux (10 * acc + Str.digit_val d) (S n) s''
            else (acc, n, s)
        | EmptyString => (acc, n, s)
        end
      else (acc, n, s)
  | EmptyString => (acc, n, s)
  end.

(** [digitpart]: a digit, then digits that may each follow one underscore. *)
Definition digitpart (s : string) : option (Z * nat * string) :=
  match s with
  | String c s' =>
      if Str.is_digit c then Some (digits_aux (Str.digit_val c) 1 s') else None
  | EmptyString => None
  end.

(** An optional sign: [true] for minus. *)
Definition sign (s : string) : bool * string :=
  match s with
  | String c s' =>
      if Ascii.eqb c "-"%char then (true, s')
      else if Ascii.eqb c "+"%char then (false, s')
      else (false, s)
  | EmptyString => (false, s)
  end.

Definition apply_sign (neg : bool) (z : Z) : Z := if neg then - z else z.

(** [int(s)], base ten. *)
Definition py_int (s : string) : result Z :=
  let (neg, t) := sign (Str.strip s) in
  match digitpart t with
  | Some (v, _, EmptyString) => Ok (apply_sign neg v)
  | _ => Raise ValueError
  end.

(** [number]: a digitpart with an optional point and an optional digitpart
    after it, or a point followed by a digitpart. Returns the digits before
    the point, the digits after it with their count, and the rest. *)
Definition number (s : string) : option (Z * Z * nat * string) :=
  match digitpart s with
  | Some (i, _, r) =>
      match r with
      | String c r' =>
          if Ascii.eqb c "."%char then
            match digitpart r' with
            | Some (f, nf, r'') => Some (i, f, nf, r'')
            | None => Some (i, 0, O, r')
            end
          else Some (i, 0, O, r)
      | EmptyString => Some (i, 0, O, r)
      end
  | None =>
      match s with
      | String c r' =>
          if Ascii.eqb c "."%char then
            match digitpart r' with
            | Some (f, nf, r'') => Some (0, f, nf, r'')
            | None => None
            end
          else None
      | EmptyString => None
      end
  end.

(** [exponent]: the letter e in either case, an optional sign, a digitpart;
    no exponent is exponent 0. *)
Definition exponent (s : string) : option (Z * string) :=
  match s with
  | String c s' =>
      if Ascii.eqb (Str.lower_char c) "e"%char then
        let (neg, t) := sign s' in
        match digitpart t with
        | Some (e, _, r) => Some (apply_sign neg e, r)
        | None => None
        end
      else Some (0, s)
  | EmptyString => Some (0, s)
  end.

Definition pow10 (e : Z) : Q :=
  if (e <? 0)%Z then 1 # Z.to_pos (Z.pow 10 (- e)) else Z.pow 10 e # 1.

Definition decimal (neg : bool) (i f : Z) (nf : nat) (e : Z) : pyfloat :=
  let scale := Z.pow 10 (Z.of_nat nf) in
  fin ((apply_sign neg (i * scale + f) # Z.to_pos scale) * pow10 e).

(** [float(s)] *)
Definition py_float (s : string) : result pyfloat :=
  let (neg, t) := sign (Str.strip s) in
  let l := Str.lower t in
  if String.eqb l "inf" || String.eqb l "infinity" then Ok (Inf neg)
  else if String.eqb l "nan" then Ok NaN
  else
    match number t with
    | Some (i, f, nf, r) =>
        match exponent r with
        | Some (e, EmptyString) => Ok (decimal neg i f nf e)
        | _ => Raise ValueError
        end
    | None => Raise ValueError
    end.

End Parse.

(** ** Control flow *)

(** [try: body except <handled>: handler] *)
Definition try_except {A : Type} (body : result A) (handled : exn -> bool)
    (handler : result A) : result A :=
  match body with
  | Ok a => Ok a
  | Raise e => if handled e then handler else Raise e
  end.

(** [for x in l: body], the loop state being what the body mutates. An
    exception leaves the loop with the state reached so far. *)
Fixpoint for_each {A S : Type} (body : S -> A -> result S) (l : list A) (s : S)
  : S * option exn :=
  match l with
  | [] => (s, None)
  | x :: l' =>
      match body s x with
      | Ok s' => for_each body l' s'
      | Raise e => (s, Some e)
      end
  end.

(** [l.append(x)] *)
Definition append {A : Type} (l : list A) (x : A) : list A := (l ++ [x])%list.

(** ** Records and dictionaries *)

Abbreviation dict := (gmap string value).

Definition mkdict (l : list (string * value)) : dict := list_to_map l.

(** [d[k]] *)
Definition getitem (d : dict) (k : string) : result value :=
  match d !! k with
  | Some v => Ok v
  | None => Raise KeyError
  end.

(** [d.get(k, default)] *)
Definition get (d : dict) (k : string) (default : value) : value :=
  match d !! k with
  | Some v => v
  | None => default
  end.

(** A number as a float, for comparisons between numbers. *)
Definition as_number (v : value) : result pyfloat :=
  match v with
  | VFloat f => Ok f
  | VInt z => Ok (Fin (z # 1))
  | VBool b => Ok (Fin ((if b then 1 else 0) # 1))
  | _ => Raise TypeError
  end.

(** [v > x] for a float [x]. *)
Definition value_gt (v : value) (x : pyfloat) : result bool :=
  let* f := as_number v in Ok (float_gtb f x).

Definition quote : ascii := "034"%char.
Definition quote_str : string := String quote EmptyString.
Definition newline : string := String "010"%char EmptyString.

(** ** Sorting

    [sorted(l, key=..., reverse=True)]: the keys are computed once, the
    pairs are sorted on the key with [<] alone, largest first, and an element
    never passes one that does not compare smaller, which is what keeps equal
    keys in the order of [l]. *)

Section Sorting.
Context {K A : Type}.
Variable ltb : K -> K -> bool.

Fixpoint insert_desc (x : K * A) (l : list (K * A)) : list (K * A) :=
  match l with
  | [] => [x]
  | y :: l' =>
      if ltb (fst x) (fst y) then y :: insert_desc x l' else x :: y :: l'
  end.

Fixpoint sort_desc (l : list (K * A)) : list (K * A) :=
  match l with
  | [] => []
  | x :: l' => insert_desc x (sort_desc l')
  end.
End Sorting.

Fixpoint map_result {A B : Type} (f : A -> result B) (l : list A)
  : result (list B) :=
  match l with
  | [] => Ok []
  | x :: l' =>
      let* y := f x in
      let* ys := map_result f l' in
      Ok (y :: ys)
  end.

(** [lambda x: x['cpu_percent']] *)
Definition cpu_key (d : dict) : result pyfloat :=
  let* v := getitem d "cpu_percent" in as_number v.

Definition decorate (d : dict) : result (pyfloat * dict) :=
  let* k := cpu_key d in Ok (k, d).

(** [sorted(processes, key=lambda x: x['cpu_percent'], reverse=True)] *)
Definition sorted_by_cpu (processes : list dict) : result (list dict) :=
  let* keyed := map_result decorate processes in
  Ok (map snd (sort_desc float_ltb keyed)).

(** ** The psutil backend *)

(** What [psutil.process_iter(attrs)] yields for one process: the [info]
    dictionary, where an attribute that could not be read is [None], and the
    outcome of a call of [proc.cpu_percent()]. The floats psutil computes are
    finite. *)
Record psutil_process : Type := {
  info_pid : Z;
  info_name : option string;
  info_cpu_percent : option Q;
  info_memory_percent : option Q;
  info_status : option string;
  info_username : option string;
  info_num_threads : option Z;
  info_memory_info : option (Z * Z);
  info_create_time : option Q;
  info_nice : option Z;
  info_cmdline : option (list string);
  call_cpu_percent : result Q
}.

(** [s or default] for an optional string: [None] and [''] are false. *)
Definition str_or (s : option string) (default : string) : string :=
  match s with
  | Some t => if Str.is_empty t then default else t
  | None => default
  end.

Definition opt_int (o : option Z) : value :=
  match o with Some z => VInt z | None => VNone end.

Definition opt_float (o : option Q) : value :=
  match o with Some q => VFloat (fin q) | None => VNone end.

Definition is_psutil_skip (e : exn) : bool :=
  match e with
  | NoSuchProcess | AccessDenied | ZombieProcess => true
  | _ => false
  end.

Definition any_exception (e : exn) : bool := true.

(** The body of the inner [try] of [_get_processes_psutil]. *)
Definition psutil_record (proc : psutil_process) : result dict :=
  let* cpu_percent :=
    match info_cpu_percent proc with
    | Some q => if float_truthy (fin q) then Ok (fin q)
                else (let* c := call_cpu_percent proc in Ok (fin c))
    | None => let* c := call_cpu_percent proc in Ok (fin c)
    end in
  let memory_info := info_memory_info proc in
  let rss := match memory_info with Some (r, _) => r | None => 0 end in
  let vms := match memory_info with Some (_, v) => v | None => 0 end in
  let* cmdline :=
    match info_cmdline proc with
    | Some args => Ok (Str.join " " args)
    | None => Raise TypeError
    end in
  Ok (mkdict
    [ ("pid", VInt (info_pid proc));
      ("name", VStr (str_or (info_name proc) "Unknown"));
      ("cpu_percent",
        VFloat (if float_truthy cpu_percent then py_round cpu_percent 1 else F0));
      ("memory_percent",
        VFloat (py_round
                  (match info_memory_percent proc with
                   | Some q => if float_truthy (fin q) then fin q else F0
                   | None => F0
                   end) 1));
      ("status", VStr (str_or (info_status proc) "unknown"));
      ("username", VStr (str_or (info_username proc) "unknown"));
      ("num_threads", opt_int (info_num_threads proc));
      ("rss", VInt rss);
      ("vms", VInt vms);
      ("nice", opt_int (info_nice proc));
      ("create_time", opt_float (info_create_time proc));
      ("cmdline", VStr cmdline) ]).

(** One turn of the loop: a process psutil can no longer read is skipped. *)
Definition psutil_step (processes : list dict) (proc : psutil_process)
  : result (list dict) :=
  try_except
    (let* process_info := psutil_record proc in
     Ok (append processes process_info))
    is_psutil_skip
    (Ok processes).

Definition psutil_collect (procs : list psutil_process) : list dict :=
  fst (for_each psutil_step procs []).

Definition _get_processes_psutil (procs : list psutil_process)
  : result (list dict) :=
  sorted_by_cpu (psutil_collect procs).

(** ** The Windows backend: [tasklist /fo csv] *)

(** The separator of the rows of [tasklist]: quote, comma, quote. *)
Definition csv_sep : string :=
  String quote (String ","%char (String quote EmptyString)).

(** [lines = result.stdout.strip().split('\n')[1:]] *)
Definition data_lines (stdout : string) : list string :=
  tl (Str.split newline (Str.strip stdout)).

Definition is_ValueError (e : exn) : bool := exn_eqb e ValueError.

(** [parts]: the row split on the separator, the quotes then stripped from
    both ends of every part. *)
Definition windows_parts (line : string) : list string :=
  map (Str.strip_chars quote_str) (Str.split csv_sep line).

(** [memory_str = parts[4].replace(',', '').replace(' K', '')] *)
Definition windows_memory_str (field : string) : string :=
  Str.replace " K" "" (Str.replace "," "" field).

(** The inner [try]: kilobytes as text to megabytes, [0.0] when the text is
    not a number. *)
Definition windows_memory_mb (memory_str : string) : result pyfloat :=
  try_except
    (let* memory_kb := Parse.py_float memory_str in
     Ok (py_round (float_div_pos memory_kb 1024) 1))
    is_ValueError
    (Ok F0).

(** The record of a row of at least five parts: the memory is worked out
    first, then the entries of the dictionary in the order they are written. *)
Definition windows_record (parts : list string) : result dict :=
  let* field4 := Str.index parts 4 in
  let memory_str := windows_memory_str field4 in
  let* memory_mb := windows_memory_mb memory_str in
  let* field1 := Str.index parts 1 in
  let* pid := Parse.py_int field1 in
  let* name := Str.index parts 0 in
  let* status :=
    if (3 <? List.length parts)%nat then Str.index parts 3 else Ok "unknown" in
  Ok (mkdict
    [ ("pid", VInt pid);
      ("name", VStr name);
      ("cpu_percent", VFloat F0);
      ("memory_percent", VFloat F0);
      ("memory_mb", VFloat memory_mb);
      ("status", VStr status);
      ("username", VStr "unknown") ]).

(** The body of the loop of [_get_processes_windows]. *)
Definition windows_step (processes : list dict) (line : string)
  : result (list dict) :=
  let parts := windows_parts line in
  if (5 <=? List.length parts)%nat then
    let* process := windows_record parts in
    Ok (append processes process)
  else Ok processes.

(** [tasklist] is the outcome of [subprocess.run]: the text written by the
    command, or the exception raised when it could not be run or failed. Both
    [except] clauses print a message and fall through to the [return]. *)
Definition _get_processes_windows (tasklist : result string) : list dict :=
  match tasklist with
  | Ok stdout => fst (for_each windows_step (data_lines stdout) [])
  | Raise _ => []
  end.

(** ** The Linux backend: [/proc] *)

Inductive file : Type :=
| Missing
| Unreadable
| Content (text : string).

(** [os.path.exists(path)] *)
Definition exists_file (f : file) : bool :=
  match f with Missing => false | _ => true end.

(** [open(path).read()] *)
Definition read_file (f : file) : result string :=
  match f with
  | Content text => Ok text
  | _ => Raise OSError
  end.

Record procfs : Type := {
  listdir : result (list string);
  stat_file : Z -> file;
  status_file : Z -> file
}.

(** The loop over the lines of the status file: the first line that starts
    with [VmRSS:] gives the value and ends the loop. *)
Fixpoint read_vmrss (lines : list string) (memory_kb : Z) : result Z :=
  match lines with
  | [] => Ok memory_kb
  | line :: rest =>
      if Str.startswith "VmRSS:" line then
        let* word := Str.index (Str.split_ws line) 1 in
        Parse.py_int word
      else read_vmrss rest memory_kb
  end.

Definition is_proc_skip (e : exn) : bool :=
  match e with
  | OSError | ValueError | IndexError => true
  | _ => false
  end.

(** The body of the inner [try] of [_get_processes_proc]. *)
Definition proc_entry (fs : procfs) (processes : list dict) (pid_dir : string)
  : result (list dict) :=
  let* pid := Parse.py_int pid_dir in
  if exists_file (stat_file fs pid) then
    let* text := read_file (stat_file fs pid) in
    let stat_data := Str.split_ws text in
    let* field1 := Str.index stat_data 1 in
    let name := Str.strip_chars "()" field1 in
    let* status := Str.index stat_data 2 in
    let* memory_kb :=
      if exists_file (status_file fs pid) then
        let* text := read_file (status_file fs pid) in
        read_vmrss (Str.split newline text) 0
      else Ok 0 in
    Ok (append processes (mkdict
      [ ("pid", VInt pid);
        ("name", VStr name);
        ("cpu_percent", VFloat F0);
        ("memory_percent", VFloat F0);
        ("memory_kb", VInt memory_kb);
        ("status", VStr status);
        ("username", VStr "unknown") ]))
  else Ok processes.

Definition proc_step (fs : procfs) (processes : list dict) (pid_dir : string)
  : result (list dict) :=
  if negb (Str.isdigit pid_dir) then Ok processes
  else try_except (proc_entry fs processes pid_dir) is_proc_skip (Ok processes).

Definition _get_processes_proc (fs : procfs) : list dict :=
  match listdir fs with
  | Ok entries => fst (for_each (proc_step fs) entries [])
  | Raise _ => []
  end.

(** ** The Unix backend: [ps axo pid,comm,pcpu,pmem,stat,user] *)

Definition ps_step (processes : list dict) (line : string)
  : result (list dict) :=
  let parts := Str.split_ws_max 5 line in
  if (5 <=? List.length parts)%nat then
    try_except
      (let* field0 := Str.index parts 0 in
       let* pid := Parse.py_int field0 in
       let* name := Str.index parts 1 in
       let* field2 := Str.index parts 2 in
       let* cpu_percent := Parse.py_float field2 in
       let* field3 := Str.index parts 3 in
       let* memory_percent := Parse.py_float field3 in
       let* status := Str.index parts 4 in
       let* username :=
         if (5 <? List.length parts)%nat then Str.index parts 5
         else Ok "unknown" in
       Ok (append processes (mkdict
         [ ("pid", VInt pid);
           ("name", VStr name);
           ("cpu_percent", VFloat cpu_percent);
           ("memory_percent", VFloat memory_percent);
           ("status", VStr status);
           ("username", VStr username) ])))
      is_ValueError
      (Ok processes)
  else Ok processes.

Definition _get_processes_ps (ps : result string) : list dict :=
  match ps with
  | Ok stdout => fst (for_each ps_step (data_lines stdout) [])
  | Raise _ => []
  end.

(** ** The system snapshot *)

(** What psutil and [platform] report to [_get_system_info_psutil]. Both
    [psutil.cpu_count()] and [psutil.cpu_count(logical=True)] are the same
    call, answered by [cpu_count]. [boot_time] is the text that
    [time.strftime] makes of [psutil.boot_time()]. *)
Record psutil_system : Type := {
  cpu_count : option Z;
  cpu_percent_sample : Q;
  memory_total : Z;
  memory_used : Z;
  memory_percent : Q;
  swap_total : Z;
  swap_used : Z;
  swap_percent : Q;
  pids : list Z;
  statuses : list string;
  boot_time : string
}.

(** What the fallback collectors read: [None] for [wmic] or [vm_stat] is a
    command that could not be started, otherwise the exit code (and the text
    written). *)
Record fallback_system : Type := {
  os_cpu_count : option Z;
  meminfo : file;
  loadavg : file;
  vm_stat : result Z;
  wmic : result (Z * string)
}.

Record host : Type := {
  platform_system : string;
  platform_platform : string;
  platform_architecture : string;
  psutil_processes : option (list psutil_process);
  psutil_snapshot : result psutil_system;
  tasklist : result string;
  proc_exists : bool;
  proc : procfs;
  ps : result string;
  fallback : fallback_system
}.

Definition PSUTIL_AVAILABLE (h : host) : bool :=
  match psutil_processes h with Some _ => true | None => false end.

(** ** The monitor object *)

Record SystemMonitor : Type := {
  self_system : string;
  self_processes : list dict;
  self_system_info : dict
}.

(** [SystemMonitor()] *)
Definition __init__ (h : host) : SystemMonitor :=
  {| self_system := Str.lower (platform_system h);
     self_processes := [];
     self_system_info := ∅ |}.

(** A method call as a step on the object: no method of [SystemMonitor]
    assigns an attribute of [self], so the object after the call is the
    object before it. *)
Definition call {A : Type} (method : SystemMonitor -> host -> A)
    (self : SystemMonitor) (h : host) : A * SystemMonitor :=
  (method self h, self).

(** ** Backend selection *)

Definition _get_processes_unix (self : SystemMonitor) (h : host) : list dict :=
  if String.eqb (self_system self) "linux" && proc_exists h
  then _get_processes_proc (proc h)
  else _get_processes_ps (ps h).

Definition _get_processes_fallback (self : SystemMonitor) (h : host)
  : list dict :=
  if String.eqb (self_system self) "windows"
  then _get_processes_windows (tasklist h)
  else _get_processes_unix self h.

Definition get_process_status (self : SystemMonitor) (h : host)
  : result (list dict) :=
  match psutil_processes h with
  | Some procs => _get_processes_psutil procs
  | None => Ok (_get_processes_fallback self h)
  end.

(** ** System collectors *)

(** [status_counts[status] += 1] on a [defaultdict(int)] *)
Definition count_status (counts : gmap string Z) (status : string)
  : result (gmap string Z) :=
  Ok (<[status := default 0 (counts !! status) + 1]> counts).

Definition gib : positive := 1073741824.
Definition mib : positive := 1048576.

Definition _get_system_info_psutil (h : host) : dict :=
  match psutil_snapshot h with
  | Ok raw =>
      let status_counts := fst (for_each count_status (statuses raw) ∅) in
      mkdict
        [ ("cpu_cores_physical", opt_int (cpu_count raw));
          ("cpu_cores_logical", opt_int (cpu_count raw));
          ("cpu_percent", VFloat (fin (cpu_percent_sample raw)));
          ("memory_total_gb", VFloat (py_round (int_truediv (memory_total raw) gib) 2));
          ("memory_used_gb", VFloat (py_round (int_truediv (memory_used raw) gib) 2));
          ("memory_percent", VFloat (fin (memory_percent raw)));
          ("swap_total_gb", VFloat (py_round (int_truediv (swap_total raw) gib) 2));
          ("swap_used_gb", VFloat (py_round (int_truediv (swap_used raw) gib) 2));
          ("swap_percent", VFloat (fin (swap_percent raw)));
          ("process_count", VInt (Z.of_nat (List.length (pids raw))));
          ("process_status_counts", VCounts status_counts);
          ("boot_time", VStr (boot_time raw));
          ("system", VStr (platform_system h));
          ("platform", VStr (platform_platform h));
          ("architecture", VStr (platform_architecture h)) ]
  | Raise _ => ∅
  end.

Definition is_OSError (e : exn) : bool := exn_eqb e OSError.

(** The body of the loop over the lines of [/proc/meminfo]. *)
Definition meminfo_line (info : dict) (line : string) : result dict :=
  if Str.startswith "MemTotal:" line then
    let* word := Str.index (Str.split_ws line) 1 in
    let* total_kb := Parse.py_int word in
    Ok (<["memory_total_gb" := VFloat (py_round (int_truediv total_kb mib) 2)]> info)
  else if Str.startswith "MemAvailable:" line then
    let* word := Str.index (Str.split_ws line) 1 in
    let* available_kb := Parse.py_int word in
    Ok (<["memory_available_gb" := VFloat (py_round (int_truediv available_kb mib) 2)]> info)
  else Ok info.

(** A [try] whose body updates [info] and whose handler is [pass]: the
    updates made before the exception stay. *)
Definition try_pass (handled : exn -> bool) (outcome : dict * option exn)
  : result dict :=
  match outcome with
  | (info, None) => Ok info
  | (info, Some e) => if handled e then Ok info else Raise e
  end.

Definition read_meminfo (f : file) (info : dict) : dict * option exn :=
  match read_file f with
  | Ok text => for_each meminfo_line (Str.split newline text) info
  | Raise e => (info, Some e)
  end.

Definition read_loadavg (f : file) (info : dict) : dict * option exn :=
  match read_file f with
  | Ok text =>
      let load_avg := firstn 3 (Str.split_ws text) in
      match map_result Parse.py_float load_avg with
      | Ok floats => (<["load_average" := VFloats floats]> info, None)
      | Raise e => (info, Some e)
      end
  | Raise e => (info, Some e)
  end.

Definition _get_linux_system_info (fb : fallback_system) : result dict :=
  let info : dict := ∅ in
  let* info := try_pass is_OSError (read_meminfo (meminfo fb) info) in
  let* info := try_pass is_OSError (read_loadavg (loadavg fb) info) in
  Ok info.

Definition is_CalledProcessError (e : exn) : bool :=
  exn_eqb e CalledProcessError.

Definition _get_macos_system_info (fb : fallback_system) : result dict :=
  let info : dict := ∅ in
  try_pass is_CalledProcessError
    match vm_stat fb with
    | Ok returncode =>
        if returncode =? 0
        then (<["vm_stat_available" := VBool true]> info, None)
        else (info, None)
    | Raise e => (info, Some e)
    end.

(** The body of the loop over the lines written by [wmic]. *)
Definition wmic_line (info : dict) (line : string) : result dict :=
  if Str.contains "TotalPhysicalMemory=" line then
    let* word := Str.index (Str.split "=" line) 1 in
    let* memory_bytes := Parse.py_int word in
    Ok (<["memory_total_gb" := VFloat (py_round (int_truediv memory_bytes gib) 2)]> info)
  else Ok info.

Definition is_wmic_pass (e : exn) : bool :=
  exn_eqb e CalledProcessError || exn_eqb e ValueError.

Definition _get_windows_system_info (fb : fallback_system) : result dict :=
  let info : dict := ∅ in
  try_pass is_wmic_pass
    match wmic fb with
    | Ok (returncode, stdout) =>
        if returncode =? 0
        then for_each wmic_line (Str.split newline stdout) info
        else (info, None)
    | Raise e => (info, Some e)
    end.

(** [os.cpu_count() or 'unknown'] *)
Definition cpu_count_or_unknown (n : option Z) : value :=
  match n with
  | Some z => if z =? 0 then VStr "unknown" else VInt z
  | None => VStr "unknown"
  end.

(** [info.update(other)] *)
Definition update (info other : dict) : dict := other ∪ info.

Definition _get_system_info_fallback (self : SystemMonitor) (h : host)
  : result dict :=
  let info := mkdict
    [ ("system", VStr (platform_system h));
      ("platform", VStr (platform_platform h));
      ("architecture", VStr (platform_architecture h));
      ("cpu_cores_logical", cpu_count_or_unknown (os_cpu_count (fallback h))) ] in
  if String.eqb (self_system self) "linux" then
    let* other := _get_linux_system_info (fallback h) in Ok (update info other)
  else if String.eqb (self_system self) "darwin" then
    let* other := _get_macos_system_info (fallback h) in Ok (update info other)
  else if String.eqb (self_system self) "windows" then
    let* other := _get_windows_system_info (fallback h) in Ok (update info other)
  else Ok info.

Definition get_detailed_system_status (self : SystemMonitor) (h : host)
  : result dict :=
  if PSUTIL_AVAILABLE h then Ok (_get_system_info_psutil h)
  else _get_system_info_fallback self h.

(** ** The pager of [display_process_status] *)

(** [a // b] *)
Definition floordiv (a b : Z) : result Z :=
  if b =? 0 then Raise ZeroDivisionError else Ok (a / b).

(** A bound of a slice, brought into [0 .. len]. *)
Definition slice_bound (len i : Z) : Z :=
  if i <? 0 then Z.max 0 (i + len) else Z.min i len.

(** [l[start:stop]] *)
Definition slice {A : Type} (l : list A) (start stop : Z) : list A :=
  let len := Z.of_nat (List.length l) in
  let a := slice_bound len start in
  let b := slice_bound len stop in
  firstn (Z.to_nat (b - a)) (skipn (Z.to_nat a) l).

(** [sum(1 for p in processes if p['cpu_percent'] > 10.0)] *)
Fixpoint count_cpu_intensive (processes : list dict) : result Z :=
  match processes with
  | [] => Ok 0
  | p :: rest =>
      let* v := getitem p "cpu_percent" in
      let* hot := value_gt v (Fin 10) in
      let* n := count_cpu_intensive rest in
      Ok (if hot then 1 + n else n)
  end.

(** [sum(1 for p in processes if p.get('memory_percent', 0) > 10.0)] *)
Fixpoint count_memory_intensive (processes : list dict) : result Z :=
  match processes with
  | [] => Ok 0
  | p :: rest =>
      let* hot := value_gt (get p "memory_percent" (VInt 0)) (Fin 10) in
      let* n := count_memory_intensive rest in
      Ok (if hot then 1 + n else n)
  end.

(** What one pass of the loop puts on the screen, as data: the rows of the
    page, the two numbers of the page label, the range and the total of the
    footer, and the two highlighted counts. *)
Record page_view : Type := {
  current_processes : list dict;
  page_label : Z;
  page_total : Z;
  showing_first : Z;
  showing_last : Z;
  total_shown : Z;
  cpu_intensive : Z;
  memory_intensive : Z
}.

Definition render (processes : list dict) (page_size current_page : Z)
  : result page_view :=
  let total_processes := Z.of_nat (List.length processes) in
  let start_idx := current_page * page_size in
  let end_idx := start_idx + page_size in
  let* pages := floordiv (total_processes + page_size - 1) page_size in
  let* cpu := count_cpu_intensive processes in
  let* mem := count_memory_intensive processes in
  Ok {| current_processes := slice processes start_idx end_idx;
        page_label := current_page + 1;
        page_total := pages;
        showing_first := start_idx + 1;
        showing_last := Z.min end_idx total_processes;
        total_shown := total_processes;
        cpu_intensive := cpu;
        memory_intensive := mem |}.

(** The page after a choice; [None] is the [break] of [q]. [choice] is the
    text typed, before [.lower()]. *)
Definition navigate (total_processes page_size current_page : Z)
    (typed : string) : result (option Z) :=
  let choice := Str.lower typed in
  let end_idx := current_page * page_size + page_size in
  if String.eqb choice "n" && (end_idx <? total_processes) then
    Ok (Some (current_page + 1))
  else if String.eqb choice "p" && (current_page >? 0) then
    Ok (Some (current_page - 1))
  else if String.eqb choice "f" then
    Ok (Some 0)
  else if String.eqb choice "l" then
    let* last := floordiv (total_processes - 1) page_size in Ok (Some last)
  else if String.eqb choice "q" then
    Ok None
  else Ok (Some current_page).

(** The [while True] loop, driven by the choices typed: every pass renders
    the current page and then moves. The result is the pages shown and the
    page index the loop stopped at. *)
Fixpoint paging_loop (processes : list dict) (page_size current_page : Z)
    (typed : list string) : result (list page_view * Z) :=
  let* view := render processes page_size current_page in
  match typed with
  | [] => Ok ([view], current_page)
  | choice :: rest =>
      let* next :=
        navigate (Z.of_nat (List.length processes)) page_size current_page choice in
      match next with
      | None => Ok ([view], current_page)
      | Some page =>
          let* shown := paging_loop processes page_size page rest in
          Ok (view :: fst shown, snd shown)
      end
  end.

(** [display_process_status]: nothing is paged when there is no process. *)
Definition display_process_status (self : SystemMonitor) (h : host)
    (page_size : Z) (typed : list string) : result (list page_view * Z) :=
  let* processes := get_process_status self h in
  match processes with
  | [] => Ok ([], 0)
  | _ => paging_loop processes page_size 0 typed
  end.

(** ** Properties of what the backends return *)

(** The floats of a list never go up. *)
Definition descending (keys : list pyfloat) : Prop :=
  StronglySorted (fun a b => float_ltb a b = false) keys.

(** A list of records is sorted descending by [cpu_percent]. *)
Definition cpu_descending (processes : list dict) : Prop :=
  exists keys, map_result cpu_key processes = Ok keys /\ descending keys.

(** [x == y] on floats. *)
Definition float_eqb (x y : pyfloat) : bool :=
  match x, y with
  | Fin a, Fin b => Qeq_bool a b
  | Inf a, Inf b => Bool.eqb a b
  | _, _ => false
  end.

(** The record has a [cpu_percent] equal to [k]. *)
Definition cpu_is (k : pyfloat) (d : dict) : bool :=
  match cpu_key d with
  | Ok f => float_eqb f k
  | Raise _ => false
  end.

(** [out] holds the records of [input], those of equal [cpu_percent] in the
    order they have in [input]. *)
Definition stable_by_cpu (input out : list dict) : Prop :=
  Permutation out input /\
  forall k, List.filter (cpu_is k) out = List.filter (cpu_is k) input.

Definition is_finite (x : pyfloat) : Prop := exists q, x = Fin q.

(** ** Hosts used in the examples *)

(** A machine without psutil where no command runs and no file is there. *)
Definition bare_host (name : string) : host :=
  {| platform_system := name;
     platform_platform := name;
     platform_architecture := "64bit";
     psutil_processes := None;
     psutil_snapshot := Raise OSError;
     tasklist := Raise OSError;
     proc_exists := false;
     proc := {| listdir := Raise OSError;
                stat_file := fun _ => Missing;
                status_file := fun _ => Missing |};
     ps := Raise OSError;
     fallback := {| os_cpu_count := None;
                    meminfo := Missing;
                    loadavg := Missing;
                    vm_stat := Raise OSError;
                    wmic := Raise OSError |} |}.

Definition with_ps (h : host) (out : result string) : host :=
  {| platform_system := platform_system h;
     platform_platform := platform_platform h;
     platform_architecture := platform_architecture h;
     psutil_processes := psutil_processes h;
     psutil_snapshot := psutil_snapshot h;
     tasklist := tasklist h;
     proc_exists := proc_exists h;
     proc := proc h;
     ps := out;
     fallback := fallback h |}.

Definition with_tasklist (h : host) (out : result string) : host :=
  {| platform_system := platform_system h;
     platform_platform := platform_platform h;
     platform_architecture := platform_architecture h;
     psutil_processes := psutil_processes h;
     psutil_snapshot := psutil_snapshot h;
     tasklist := out;
     proc_exists := proc_exists h;
     proc := proc h;
     ps := ps h;
     fallback := fallback h |}.

Definition with_proc (h : host) (fs : procfs) : host :=
  {| platform_system := platform_system h;
     platform_platform := platform_platform h;
     platform_architecture := platform_architecture h;
     psutil_processes := psutil_processes h;
     psutil_snapshot := psutil_snapshot h;
     tasklist := tasklist h;
     proc_exists := true;
     proc := fs;
     ps := ps h;
     fallback := fallback h |}.

Definition with_psutil (h : host) (procs : list psutil_process)
    (snapshot : result psutil_system) : host :=
  {| platform_system := platform_system h;
     platform_platform := platform_platform h;
     platform_architecture := platform_architecture h;
     psutil_processes := Some procs;
     psutil_snapshot := snapshot;
     tasklist := tasklist h;
     proc_exists := proc_exists h;
     proc := proc h;
     ps := ps h;
     fallback := fallback h |}.

Definition with_fallback (h : host) (fb : fallback_system) : host :=
  {| platform_system := platform_system h;
     platform_platform := platform_platform h;
     platform_architecture := platform_architecture h;
     psutil_processes := psutil_processes h;
     psutil_snapshot := psutil_snapshot h;
     tasklist := tasklist h;
     proc_exists := proc_exists h;
     proc := proc h;
     ps := ps h;
     fallback := fb |}.

(** Two rows of [ps] under its header, the busier process second. *)
Definition ps_sample : string :=
  Str.join newline
    [ "  PID COMM  %CPU %MEM STAT USER";
      "    1 init   0.5  0.1 Ss   root";
      "    2 busy  50.0  1.0 R    alice" ].

Definition ps_host : host := with_ps (bare_host "Darwin") (Ok ps_sample).

Definition ps_sample_records : list dict :=
  [ mkdict [ ("pid", VInt 1); ("name", VStr "init");
             ("cpu_percent", VFloat (Fin (1 # 2)));
             ("memory_percent", VFloat (Fin (1 # 10)));
             ("status", VStr "Ss"); ("username", VStr "root") ];
    mkdict [ ("pid", VInt 2); ("name", VStr "busy");
             ("cpu_percent", VFloat (Fin 50));
             ("memory_percent", VFloat (Fin 1));
             ("status", VStr "R"); ("username", VStr "alice") ] ].

Definition finite_cpu (d : dict) : Prop :=
  exists f, d !! "cpu_percent" = Some (VFloat f) /\ is_finite f.

Definition zero_cpu (d : dict) : Prop := d !! "cpu_percent" = Some (VFloat F0).

(** The page index is one of the pages of [total] records. *)
Definition valid_page (total page_size page : Z) : Prop :=
  0 <= page <= (total - 1) / page_size.


(** What every page of a session shows: a label within the pages, the number
    of pages, and the two counts of the whole list. *)
Definition session_page (total page_size cpu_count mem_count : Z)
    (v : page_view) : Prop :=
  valid_page total page_size (page_label v - 1) /\
  page_total v = (total - 1) / page_size + 1 /\
  cpu_intensive v = cpu_count /\
  memory_intensive v = mem_count.

(** A row as [tasklist /fo csv] writes it: every field between quotes, the
    fields separated by commas. *)
Definition csv_row (fields : list string) : string :=
  String.append quote_str (String.append (Str.join csv_sep fields) quote_str).

Definition tasklist_header : string :=
  csv_row ["Image Name"; "PID"; "Session Name"; "Session#"; "Mem Usage"].

Definition notepad_row : string :=
  csv_row ["notepad.exe"; "1234"; "Console"; "1"; "10,240 K"].

Definition notepad_record : dict :=
  mkdict [ ("pid", VInt 1234); ("name", VStr "notepad.exe");
           ("cpu_percent", VFloat F0); ("memory_percent", VFloat F0);
           ("memory_mb", VFloat (Fin 10));
           ("status", VStr "1"); ("username", VStr "unknown") ].

(** A row whose memory field is not a number. *)
Definition idle_row : string :=
  csv_row ["System Idle Process"; "0"; "Services"; "0"; "N/A"].

Definition idle_record : dict :=
  mkdict [ ("pid", VInt 0); ("name", VStr "System Idle Process");
           ("cpu_percent", VFloat F0); ("memory_percent", VFloat F0);
           ("memory_mb", VFloat F0);
           ("status", VStr "0"); ("username", VStr "unknown") ].

(** A row whose pid is not a number, and a row of two fields. *)
Definition bad_pid_row : string :=
  csv_row ["svchost.exe"; "n/a"; "Services"; "0"; "5,120 K"].

Definition short_row : string := csv_row ["svchost.exe"; "812"].

Definition output_of (rows : list string) : string := Str.join newline rows.

(** The parts of a row are at least five and the second one is an integer. *)
Definition wellformed_row (line : string) : Prop :=
  (5 <= List.length (windows_parts line))%nat /\
  exists pid, Parse.py_int (nth 1 (windows_parts line) "") = Ok pid.

(** The status file of the scenario: the resident size on its third line. *)
Definition myproc_status : string :=
  output_of
    [ "Name:   myproc";
      "VmPeak:     4096 kB";
      "VmRSS:    2048 kB";
      "Threads:        1";
      "" ].

Definition myproc_stat : string := "123 (myproc) S 1 123 123 0 -1 4194560".

(** A [/proc] with the process 123 next to an entry that is no process. *)
Definition proc_sample : procfs :=
  {| listdir := Ok ["123"; "cpuinfo"];
     stat_file := fun pid => if pid =? 123 then Content myproc_stat else Missing;
     status_file := fun pid => if pid =? 123 then Content myproc_status else Missing |}.

Definition proc_host : host := with_proc (bare_host "Linux") proc_sample.

Definition myproc_record : dict :=
  mkdict [ ("pid", VInt 123); ("name", VStr "myproc");
           ("cpu_percent", VFloat F0); ("memory_percent", VFloat F0);
           ("memory_kb", VInt 2048);
           ("status", VStr "S"); ("username", VStr "unknown") ].




Definition windows_host : host :=
  with_tasklist (bare_host "Windows")
    (Ok (output_of [ tasklist_header; notepad_row;
                     csv_row [""; "4"; "Services"; "0"; "8 K"] ])).

Definition nameless_record : dict :=
  mkdict [ ("pid", VInt 4); ("name", VStr "");
           ("cpu_percent", VFloat F0); ("memory_percent", VFloat F0);
           ("memory_mb", VFloat F0);
           ("status", VStr "0"); ("username", VStr "unknown") ].

(** ** Where the optional fields of a fallback snapshot come from *)

(** [v] is the size, in GB rounded to two decimals, that a line of
    [/proc/meminfo] starting with [prefix] gives in kB. *)
Definition meminfo_supplies (fb : fallback_system) (prefix : string)
    (v : value) : Prop :=
  exists text line word kb,
    meminfo fb = Content text /\
    In line (Str.split newline text) /\
    Str.startswith prefix line = true /\
    Str.index (Str.split_ws line) 1 = Ok word /\
    Parse.py_int word = Ok kb /\
    v = VFloat (py_round (int_truediv kb mib) 2).

(** [v] is the list of the first three numbers of [/proc/loadavg]. *)
Definition loadavg_supplies (fb : fallback_system) (v : value) : Prop :=
  exists text floats,
    loadavg fb = Content text /\
    map_result Parse.py_float (firstn 3 (Str.split_ws text)) = Ok floats /\
    v = VFloats floats.

(** [v] is the size, in GB rounded to two decimals, that a line
    [TotalPhysicalMemory=...] written by a successful [wmic] gives in bytes. *)
Definition wmic_supplies (fb : fallback_system) (v : value) : Prop :=
  exists stdout line word memory_bytes,
    wmic fb = Ok (0, stdout) /\
    In line (Str.split newline stdout) /\
    Str.contains "TotalPhysicalMemory=" line = true /\
    Str.index (Str.split "=" line) 1 = Ok word /\
    Parse.py_int word = Ok memory_bytes /\
    v = VFloat (py_round (int_truediv memory_bytes gib) 2).

(** Field [k] with value [v] was read from its source on this system. *)
Definition optional_supplied (sys : string) (fb : fallback_system)
    (k : string) (v : value) : Prop :=
  (sys = "linux" /\ k = "memory_total_gb" /\ meminfo_supplies fb "MemTotal:" v) \/
  (sys = "linux" /\ k = "memory_available_gb" /\
     meminfo_supplies fb "MemAvailable:" v) \/
  (sys = "linux" /\ k = "load_average" /\ loadavg_supplies fb v) \/
  (sys = "darwin" /\ k = "vm_stat_available" /\
     vm_stat fb = Ok 0 /\ v = VBool true) \/
  (sys = "windows" /\ k = "memory_total_gb" /\ wmic_supplies fb v).

(** The four fields every fallback snapshot starts from. *)
Definition base_field (k : string) : Prop :=
  k = "system" \/ k = "platform" \/ k = "architecture" \/
  k = "cpu_cores_logical".

(** A Linux machine that reports no core count, with a readable
    [/proc/meminfo] and no [/proc/loadavg]. *)
Definition linux_fallback : fallback_system :=
  {| os_cpu_count := None;
     meminfo := Content (output_of
       [ "MemTotal:       16384000 kB";
         "MemFree:         1024000 kB";
         "MemAvailable:    8192000 kB";
         "" ]);
     loadavg := Unreadable;
     vm_stat := Raise OSError;
     wmic := Raise OSError |}.

Definition linux_host : host := with_fallback (bare_host "Linux") linux_fallback.

Definition linux_snapshot : dict :=
  mkdict [ ("system", VStr "Linux"); ("platform", VStr "Linux");
           ("architecture", VStr "64bit");
           ("cpu_cores_logical", VStr "unknown");
           ("memory_total_gb", VFloat (Fin (781 # 50)));
           ("memory_available_gb", VFloat (Fin (781 # 100))) ].

(** The snapshot of a machine where nothing optional can be read. *)
Definition bare_snapshot : dict :=
  mkdict [ ("system", VStr "Linux"); ("platform", VStr "Linux");
           ("architecture", VStr "64bit");
           ("cpu_cores_logical", VStr "unknown") ].

(** A [/proc/meminfo] whose total is not a number. *)
Definition garbled_fallback : fallback_system :=
  {| os_cpu_count := Some 4;
     meminfo := Content (output_of ["MemTotal:       unknown kB"; ""]);
     loadavg := Unreadable;
     vm_stat := Raise OSError;
     wmic := Raise OSError |}.





(** What psutil reports on a machine of eight cores and 16 GiB. *)
Definition psutil_sample : psutil_system :=
  {| cpu_count := Some 8;
     cpu_percent_sample := 25 # 2;
     memory_total := 17179869184;
     memory_used := 8000000000;
     memory_percent := 466 # 10;
     swap_total := 2147483648;
     swap_used := 0;
     swap_percent := 0;
     pids := [1; 2; 40];
     statuses := ["sleeping"; "running"; "sleeping"];
     boot_time := "2024-01-01 08:00:00" |}.

Definition idle_process : psutil_process :=
  {| info_pid := 1;
     info_name := Some "init";
     info_cpu_percent := Some 0%Q;
     info_memory_percent := Some (1 # 10);
     info_status := Some "sleeping";
     info_username := Some "root";
     info_num_threads := Some 1;
     info_memory_info := Some (4096, 8192);
     info_create_time := None;
     info_nice := Some 0;
     info_cmdline := Some ["/sbin/init"];
     call_cpu_percent := Ok 0%Q |}.

(** The same machine at two moments: psutil reports the same system
    figures, the processes and the output of [ps] are not the same. *)
Definition machine_before : host :=
  with_psutil (bare_host "Linux") [] (Ok psutil_sample).

Definition machine_after : host :=
  with_psutil (with_ps (bare_host "Linux") (Ok ps_sample)) [idle_process]
    (Ok psutil_sample).

Definition psutil_snapshot_sample : dict :=
  mkdict
    [ ("cpu_cores_physical", VInt 8);
      ("cpu_cores_logical", VInt 8);
      ("cpu_percent", VFloat (Fin (25 # 2)));
      ("memory_total_gb", VFloat (Fin 16));
      ("memory_used_gb", VFloat (Fin (149 # 20)));
      ("memory_percent", VFloat (Fin (233 # 5)));
      ("swap_total_gb", VFloat (Fin 2));
      ("swap_used_gb", VFloat (Fin 0));
      ("swap_percent", VFloat (Fin 0));
      ("process_count", VInt 3);
      ("process_status_counts",
        VCounts (<["sleeping" := 2]> (<["running" := 1]> ∅)));
      ("boot_time", VStr "2024-01-01 08:00:00");
      ("system", VStr "Linux");
      ("platform", VStr "Linux");
      ("architecture", VStr "64bit") ].

(** ** Further examples *)

(** A process that uses the processor. *)
Definition busy_process : psutil_process :=
  {| info_pid := 2;
     info_name := Some "busy";
     info_cpu_percent := Some (85 # 2);
     info_memory_percent := Some (5 # 2);
     info_status := Some "running";
     info_username := Some "alice";
     info_num_threads := Some 4;
     info_memory_info := Some (1048576, 2097152);
     info_create_time := None;
     info_nice := Some 0;
     info_cmdline := Some ["busy"; "--loop"];
     call_cpu_percent := Ok (85 # 2)%Q |}.

(** A process that can no longer be asked for its processor time. *)
Definition gone_process : psutil_process :=
  {| info_pid := 3;
     info_name := Some "gone";
     info_cpu_percent := None;
     info_memory_percent := None;
     info_status := None;
     info_username := None;
     info_num_threads := None;
     info_memory_info := None;
     info_create_time := None;
     info_nice := None;
     info_cmdline := Some [];
     call_cpu_percent := Raise NoSuchProcess |}.

(** A process whose command line psutil was not allowed to read. *)
Definition guarded_process : psutil_process :=
  {| info_pid := 4;
     info_name := Some "guarded";
     info_cpu_percent := Some (3 # 2);
     info_memory_percent := Some (1 # 2);
     info_status := Some "sleeping";
     info_username := None;
     info_num_threads := None;
     info_memory_info := None;
     info_create_time := None;
     info_nice := None;
     info_cmdline := None;
     call_cpu_percent := Ok (3 # 2)%Q |}.

Definition late_process : psutil_process :=
  {| info_pid := 5;
     info_name := Some "late";
     info_cpu_percent := Some 0%Q;
     info_memory_percent := Some (1 # 10);
     info_status := Some "sleeping";
     info_username := Some "root";
     info_num_threads := Some 1;
     info_memory_info := Some (4096, 8192);
     info_create_time := None;
     info_nice := Some 0;
     info_cmdline := Some ["late"];
     call_cpu_percent := Ok 0%Q |}.

Definition psutil_host (procs : list psutil_process) : host :=
  with_psutil (bare_host "Linux") procs (Ok psutil_sample).

(** The [pid] of a record, 0 when it has none. *)
Definition pid_of (d : dict) : Z :=
  match d !! "pid" with
  | Some (VInt pid) => pid
  | _ => 0
  end.

(** A text without white space that is not empty. *)
Fixpoint no_space (s : string) : bool :=
  match s with
  | EmptyString => true
  | String c s' => negb (Str.is_space c) && no_space s'
  end.

Definition is_token (s : string) : bool := negb (Str.is_empty s) && no_space s.

(** A text made of white space only. *)
Fixpoint all_space (s : string) : bool :=
  match s with
  | EmptyString => true
  | String c s' => Str.is_space c && all_space s'
  end.

(** A line of columns: every column is a run of white space, a token and
    one space; the last column, after its run of white space, is the rest of
    the line. *)
Fixpoint columns (cols : list (string * string)) (rest : string) : string :=
  match cols with
  | [] => rest
  | (pad, token) :: cols' =>
      String.append pad
        (String.append token (String " "%char (columns cols' rest)))
  end.

Definition padded_column (col : string * string) : Prop :=
  all_space (fst col) = true /\ is_token (snd col) = true.

(** A row of [ps] that gives no record: fewer than five columns, or a pid,
    a processor figure or a memory figure that is not a number. *)
Definition ps_rejected (line : string) : Prop :=
  let parts := Str.split_ws_max 5 line in
  (List.length parts < 5)%nat \/
  Parse.py_int (nth 0 parts "") = Raise ValueError \/
  Parse.py_float (nth 2 parts "") = Raise ValueError \/
  Parse.py_float (nth 3 parts "") = Raise ValueError.

(** Rows of [ps]: one whose pid is not a number, one with a user name of
    two words. *)
Definition ps_bad_row : string := "    ? defunct  0.0  0.0 Z    root".

Definition ps_wide_row : string := "   77 editor  12.5  3.0 S+   alice smith".

Definition editor_record : dict :=
  mkdict [ ("pid", VInt 77); ("name", VStr "editor");
           ("cpu_percent", VFloat (Fin (25 # 2)));
           ("memory_percent", VFloat (Fin 3));
           ("status", VStr "S+"); ("username", VStr "alice smith") ].

(** The first [VmRSS:] line of a status file does not give an integer:
    it has no second word, or one that is not a number. *)
Definition bad_vmrss (text : string) : Prop :=
  exists before line after,
    Str.split newline text = (before ++ line :: after)%list /\
    Forall (fun l => Str.startswith "VmRSS:" l = false) before /\
    Str.startswith "VmRSS:" line = true /\
    (Str.index (Str.split_ws line) 1 = Raise IndexError \/
     exists word,
       Str.index (Str.split_ws line) 1 = Ok word /\
       Parse.py_int word = Raise ValueError).

(** The files of process [pid] that are there cannot be turned into a
    record: the stat file cannot be read or has fewer than three words, or the
    status file cannot be read or has a bad [VmRSS:] line. *)
Definition proc_unparsable (fs : procfs) (pid : Z) : Prop :=
  stat_file fs pid = Unreadable \/
  (exists text,
     stat_file fs pid = Content text /\
     (List.length (Str.split_ws text) < 3)%nat) \/
  (stat_file fs pid <> Missing /\ status_file fs pid = Unreadable) \/
  (stat_file fs pid <> Missing /\
   exists text, status_file fs pid = Content text /\ bad_vmrss text).

(** A [/proc] with a kernel thread, whose status file has no [VmRSS:]
    line, a process whose stat file cannot be read, one whose [VmRSS:] line is
    cut short, and the process 123. *)
Definition proc_mixed : procfs :=
  {| listdir := Ok ["2"; "self"; "50"; "60"; "123"];
     stat_file := fun pid =>
       if pid =? 2 then Content "2 (kthreadd) S 0 0 0"
       else if pid =? 50 then Unreadable
       else if pid =? 60 then Content "60 (cut) R 1 60 60"
       else if pid =? 123 then Content myproc_stat
       else Missing;
     status_file := fun pid =>
       if pid =? 2 then Content (output_of ["Name:   kthreadd"; "Threads:        1"; ""])
       else if pid =? 60 then Content (output_of ["Name:   cut"; "VmRSS:"; ""])
       else if pid =? 123 then Content myproc_status
       else Missing |}.

Definition kthreadd_record : dict :=
  mkdict [ ("pid", VInt 2); ("name", VStr "kthreadd");
           ("cpu_percent", VFloat F0); ("memory_percent", VFloat F0);
           ("memory_kb", VInt 0);
           ("status", VStr "S"); ("username", VStr "unknown") ].

(** The record comes from an entry of [/proc] that is a number and has a
    stat file. *)
Definition from_entry (fs : procfs) (entries : list string) (d : dict) : Prop :=
  exists entry pid,
    In entry entries /\
    Str.isdigit entry = true /\
    Parse.py_int entry = Ok pid /\
    exists_file (stat_file fs pid) = true /\
    d !! "pid" = Some (VInt pid).

(** A [/proc/meminfo] with two [MemTotal:] lines. *)
Definition doubled_fallback : fallback_system :=
  {| os_cpu_count := Some 4;
     meminfo := Content (output_of
       [ "MemTotal:        1048576 kB";
         "MemAvailable:     524288 kB";
         "MemTotal:        2097152 kB";
         "Cached:           100000 kB" ]);
     loadavg := Content "0.52 0.58 0.59 1/257 1234";
     vm_stat := Raise OSError;
     wmic := Raise OSError |}.

(** The line is one of the two that [_get_linux_system_info] reads. *)
Definition meminfo_key_line (line : string) : bool :=
  Str.startswith "MemTotal:" line || Str.startswith "MemAvailable:" line.




(** The number of items of [l] equal to [x]. *)
Definition occurrences (x : string) (l : list string) : Z :=
  Z.of_nat (count_occ string_dec l x).





(** Seven records with the pids 1 to 7. *)
Definition numbered_record (pid : Z) : dict :=
  mkdict [ ("pid", VInt pid); ("name", VStr "worker");
           ("cpu_percent", VFloat F0); ("memory_percent", VFloat F0);
           ("status", VStr "S"); ("username", VStr "root") ].

Definition seven_records : list dict :=
  map numbered_record [1; 2; 3; 4; 5; 6; 7].

(** ** What [display_detailed_system_status] prints *)

(** A line printed, as data: a fixed text; a label, the value formatted after
    it and a unit; a state with its count; the load averages. The text that
    Python makes of a value is not part of the embedding. *)
Inductive line : Type :=
| Text (text : string)
| Field (label : string) (v : value) (suffix : string)
| StatusLine (status : string) (count : Z)
| LoadAverage (loads : list pyfloat).

(** [s * n] *)
Fixpoint repeat_string (s : string) (n : nat) : string :=
  match n with
  | O => EmptyString
  | S n' => String.append s (repeat_string s n')
  end.

(** [a < b] on tuples of a string and an integer. *)
Definition item_ltb (a b : string * Z) : bool :=
  String.ltb (fst a) (fst b) ||
  (String.eqb (fst a) (fst b) && (snd a <? snd b)).

(** [sorted(items)]: smallest first; an item never passes one that is not
    smaller. *)
Fixpoint insert_item (x : string * Z) (l : list (string * Z))
  : list (string * Z) :=
  match l with
  | [] => [x]
  | y :: l' => if item_ltb y x then y :: insert_item x l' else x :: y :: l'
  end.

Fixpoint sorted_items (l : list (string * Z)) : list (string * Z) :=
  match l with
  | [] => []
  | x :: l' => insert_item x (sorted_items l')
  end.

(** [not info] *)
Definition is_empty_dict (info : dict) : bool :=
  match map_to_list info with
  | [] => true
  | _ => false
  end.

(** The two fields that the display takes apart have the shape the
    collectors give them: a dictionary of counts, a list of floats. *)
Definition shape_ok (info : dict) : bool :=
  match info !! "process_status_counts" with
  | Some (VCounts _) | None => true
  | _ => false
  end &&
  match info !! "load_average" with
  | Some (VFloats _) | None => true
  | _ => false
  end.

(** [if k in info: print(f"{label}{info[k]}{suffix}")] *)
Definition print_field (info : dict) (k label suffix : string)
    (out : list line) : list line :=
  match info !! k with
  | Some v => append out (Field label v suffix)
  | None => out
  end.

Definition swap_section (info : dict) (out : list line)
  : list line * option exn :=
  match info !! "swap_total_gb" with
  | None => (out, None)
  | Some total =>
      match value_gt total (Fin 0) with
      | Raise e => (out, Some e)
      | Ok false => (out, None)
      | Ok true =>
          let out := append out (Text (String.append newline "Swap Information:")) in
          let out := append out (Field "  Total Swap: " total " GB") in
          match getitem info "swap_used_gb" with
          | Raise e => (out, Some e)
          | Ok used =>
              let out := append out (Field "  Used Swap: " used " GB") in
              match getitem info "swap_percent" with
              | Raise e => (out, Some e)
              | Ok percent =>
                  (append out (Field "  Swap Usage: " percent "%"), None)
              end
          end
      end
  end.

Definition status_lines (counts : gmap string Z) : list line :=
  map (fun item => StatusLine (fst item) (snd item))
      (sorted_items (map_to_list counts)).

Definition process_section (info : dict) (out : list line) : list line :=
  match info !! "process_count" with
  | None => out
  | Some n =>
      let out := append out (Text (String.append newline "Process Information:")) in
      let out := append out (Field "  Total Processes: " n "") in
      match info !! "process_status_counts" with
      | Some (VCounts counts) =>
          (append out (Text "  Process Status Distribution:")
             ++ status_lines counts)%list
      | _ => out
      end
  end.

Definition load_section (info : dict) (out : list line) : list line :=
  match info !! "load_average" with
  | Some (VFloats loads) => append out (LoadAverage loads)
  | _ => out
  end.

(** What is printed for a snapshot that is not empty, after the heading. *)
Definition display_info (info : dict) (out : list line)
  : list line * option exn :=
  let out := append out (Field "System: " (get info "system" (VStr "unknown")) "") in
  let out := append out (Field "Platform: " (get info "platform" (VStr "unknown")) "") in
  let out :=
    append out (Field "Architecture: " (get info "architecture" (VStr "unknown")) "") in
  let out := print_field info "boot_time" "Boot Time: " "" out in
  let out := append out (Text (String.append newline "CPU Information:")) in
  let out := print_field info "cpu_cores_physical" "  Physical Cores: " "" out in
  let out := print_field info "cpu_cores_logical" "  Logical Cores: " "" out in
  let out := print_field info "cpu_percent" "  CPU Usage: " "%" out in
  let out := append out (Text (String.append newline "Memory Information:")) in
  let out := print_field info "memory_total_gb" "  Total Memory: " " GB" out in
  let out := print_field info "memory_used_gb" "  Used Memory: " " GB" out in
  let out := print_field info "memory_percent" "  Memory Usage: " "%" out in
  match swap_section info out with
  | (out, Some e) => (out, Some e)
  | (out, None) => (load_section info (process_section info out), None)
  end.

Definition heading : list line :=
  [ Text (String.append newline (repeat_string "=" 80));
    Text "DS - DETAILED SYSTEM STATUS";
    Text (repeat_string "=" 80) ].

(** [display_detailed_system_status]: the lines printed and the exception
    that ended the printing, if one did. [None] stands for a snapshot with a
    field of a shape that no collector writes, which is outside the
    embedding. *)
Definition display_detailed_system_status (self : SystemMonitor) (h : host)
  : option (list line * option exn) :=
  match get_detailed_system_status self h with
  | Raise e => Some (heading, Some e)
  | Ok info =>
      if is_empty_dict info
      then Some (append heading (Text "System information not available."), None)
      else if shape_ok info then Some (display_info info heading)
      else None
  end.

(** The heading of the swap section among the lines printed. *)
Definition is_swap_heading (l : line) : bool :=
  match l with
  | Text t => String.eqb t (String.append newline "Swap Information:")
  | _ => false
  end.




(** * setup.py *)

Module Setup.

(** [requirements]: the list that setup.py builds from the lines of
    requirements.txt, each line as the file yields it, with its line feed.
      [line.strip() for line in fh
       if line.strip() and not line.startswith(#)] *)
Definition keeps (line : string) : bool :=
  negb (Str.is_empty (Str.strip line)) && negb (Str.startswith "#" line).

Definition requirements (lines : list string) : list string :=
  map Str.strip (List.filter keeps lines).

End Setup.

(** The lines of a requirements file with a comment, an empty line, an
    indented comment and a padded name. *)
Definition requirements_sample : list string :=
  [ String.append "psutil>=5.8.0" newline;
    String.append "# optional" newline;
    newline;
    String.append "  # indented" newline;
    String.append "  colorama  " newline ].

(** * Theorems *)

(** ** Sorting *)

Section SortFacts.
Context {K A : Type}.
Variable ltb : K -> K -> bool.
Variable good : K -> Prop.
Hypothesis ltb_asym :
  forall a b, good a -> good b -> ltb a b = true -> ltb b a = false.
Hypothesis ltb_negtrans :
  forall a b c, good a -> good b -> good c ->
    ltb a b = false -> ltb b c = false -> ltb a c = false.

Let ge (x y : K * A) : Prop := ltb (fst x) (fst y) = false.
Let same (z x : K * A) : bool :=
  negb (ltb (fst z) (fst x)) && negb (ltb (fst x) (fst z)).
Let goods (l : list (K * A)) : Prop := Forall (fun x => good (fst x)) l.

Lemma insert_desc_perm (x : K * A) l :
  Permutation (insert_desc ltb x l) (x :: l).
Proof.
  induction l as [|y l IH]; simpl; [reflexivity|].
  destruct (ltb (fst x) (fst y)); [|reflexivity].
  rewrite IH. apply perm_swap.
Qed.

Lemma sort_desc_perm (l : list (K * A)) : Permutation (sort_desc ltb l) l.
Proof.
  induction l as [|x l IH]; simpl; [reflexivity|].
  rewrite insert_desc_perm. now rewrite IH.
Qed.

Lemma goods_sort l : goods l -> goods (sort_desc ltb l).
Proof.
  unfold goods. intros H.
  eapply Permutation_Forall; [symmetry; apply sort_desc_perm | exact H].
Qed.

Lemma insert_desc_sorted x l :
  good (fst x) -> goods l ->
  StronglySorted ge l -> StronglySorted ge (insert_desc ltb x l).
Proof.
  intros Hx Hl Hs. induction Hs as [|y l Hs IH Hy]; simpl.
  - repeat constructor.
  - inversion Hl as [|? ? Gy Gl]; subst.
    destruct (ltb (fst x) (fst y)) eqn:E.
    + constructor; [apply IH; assumption|].
      eapply Permutation_Forall; [symmetry; apply insert_desc_perm|].
      constructor; [|assumption].
      unfold ge. now apply ltb_asym.
    + constructor; [constructor; assumption|].
      constructor; [exact E|].
      rewrite List.Forall_forall in *. intros z Hz.
      unfold ge. apply ltb_negtrans with (b := fst y); auto.
      apply Hy; assumption.
Qed.

Lemma sort_desc_sorted l : goods l -> StronglySorted ge (sort_desc ltb l).
Proof.
  induction l as [|x l IH]; simpl; intros H; [constructor|].
  inversion H; subst.
  apply insert_desc_sorted; auto using goods_sort.
Qed.

Lemma insert_desc_stable z x l :
  good (fst z) -> good (fst x) -> goods l ->
  List.filter (same z) (insert_desc ltb x l) = List.filter (same z) (x :: l).
Proof.
  intros Hz Hx Hl. induction Hl as [|y l Gy Gl IH]; [reflexivity|].
  cbn [insert_desc].
  destruct (ltb (fst x) (fst y)) eqn:E; [|reflexivity].
  cbn [List.filter] in *. rewrite IH.
  destruct (same z x) eqn:Ex; [|reflexivity].
  destruct (same z y) eqn:Ey; [|reflexivity].
  exfalso. unfold same in Ex, Ey.
  apply andb_prop in Ex as [_ Ex]. apply andb_prop in Ey as [Ey _].
  apply negb_true_iff in Ex, Ey.
  rewrite (ltb_negtrans (fst x) (fst z) (fst y)) in E; auto; discriminate.
Qed.

Lemma sort_desc_stable z l :
  good (fst z) -> goods l ->
  List.filter (same z) (sort_desc ltb l) = List.filter (same z) l.
Proof.
  intros Hz Hl. induction Hl as [|x l Gx Gl IH]; [reflexivity|].
  cbn [sort_desc]. rewrite insert_desc_stable; auto using goods_sort.
  cbn [List.filter]. now rewrite IH.
Qed.
End SortFacts.

(** ** The order of finite floats *)

Lemma float_ltb_fin (a b : Q) : float_ltb (Fin a) (Fin b) = true <-> (a < b)%Q.
Proof.
  simpl. rewrite Qlt_alt. destruct (a ?= b)%Q; split; congruence.
Qed.

Lemma float_ltb_fin_false (a b : Q) :
  float_ltb (Fin a) (Fin b) = false <-> (b <= a)%Q.
Proof.
  rewrite <- not_true_iff_false, float_ltb_fin. split.
  - apply Qnot_lt_le.
  - apply Qle_not_lt.
Qed.

Lemma float_ltb_asym (a b : pyfloat) :
  is_finite a -> is_finite b -> float_ltb a b = true -> float_ltb b a = false.
Proof.
  intros [x ->] [y ->]. rewrite float_ltb_fin, float_ltb_fin_false.
  apply Qlt_le_weak.
Qed.

Lemma float_ltb_negtrans (a b c : pyfloat) :
  is_finite a -> is_finite b -> is_finite c ->
  float_ltb a b = false -> float_ltb b c = false -> float_ltb a c = false.
Proof.
  intros [x ->] [y ->] [z ->]. rewrite !float_ltb_fin_false.
  intros H1 H2. now apply Qle_trans with y.
Qed.

Lemma py_round_finite x n : is_finite x -> is_finite (py_round x n).
Proof. intros [q ->]. simpl. unfold fin. eexists; reflexivity. Qed.

(** ** Sorting records by [cpu_percent] *)

Lemma map_result_decorate l keys :
  map_result cpu_key l = Ok keys ->
  map_result decorate l = Ok (combine keys l) /\
  List.length keys = List.length l.
Proof.
  revert keys. induction l as [|d l IH]; simpl; intros keys H.
  - inversion H; subst. split; reflexivity.
  - unfold decorate at 1. destruct (cpu_key d) as [k|e]; simpl in *; [|discriminate].
    destruct (map_result cpu_key l) as [ks|e]; simpl in *; [|discriminate].
    inversion H; subst. destruct (IH ks eq_refl) as [-> Hlen].
    simpl. split; [reflexivity | now rewrite Hlen].
Qed.

Lemma map_result_cpu_key_map_snd (l : list (pyfloat * dict)) :
  Forall (fun x => cpu_key (snd x) = Ok (fst x)) l ->
  map_result cpu_key (map snd l) = Ok (map fst l).
Proof.
  induction 1 as [|x l Hx Hl IH]; simpl; [reflexivity|].
  now rewrite Hx, IH.
Qed.

Lemma combine_keyed l keys :
  map_result cpu_key l = Ok keys ->
  Forall (fun x => cpu_key (snd x) = Ok (fst x)) (combine keys l).
Proof.
  revert keys. induction l as [|d l IH]; simpl; intros keys H.
  - inversion H; subst. constructor.
  - destruct (cpu_key d) as [k|e] eqn:E; simpl in *; [|discriminate].
    destruct (map_result cpu_key l) as [ks|e]; simpl in *; [|discriminate].
    inversion H; subst. simpl. constructor; auto.
Qed.

Lemma map_snd_combine (l : list dict) (keys : list pyfloat) :
  List.length keys = List.length l -> map snd (combine keys l) = l.
Proof.
  revert keys. induction l as [|d l IH]; intros [|k keys]; simpl; intros H;
    try reflexivity; try discriminate.
  f_equal. apply IH. now inversion H.
Qed.

Lemma map_fst_combine (l : list dict) (keys : list pyfloat) :
  List.length keys = List.length l -> map fst (combine keys l) = keys.
Proof.
  revert keys. induction l as [|d l IH]; intros [|k keys]; simpl; intros H;
    try reflexivity; try discriminate.
  f_equal. apply IH. now inversion H.
Qed.

Lemma StronglySorted_map {X Y : Type} (f : X -> Y) (R : Y -> Y -> Prop) l :
  StronglySorted (fun a b => R (f a) (f b)) l -> StronglySorted R (map f l).
Proof.
  induction 1 as [|x l Hs IH Hx]; simpl; constructor; auto.
  rewrite List.Forall_forall in *. intros y Hy.
  apply in_map_iff in Hy as [z [<- Hz]]. auto.
Qed.

Lemma filter_map_snd (p : dict -> bool) (l : list (pyfloat * dict)) :
  List.filter p (map snd l) = map snd (List.filter (fun x => p (snd x)) l).
Proof.
  induction l as [|x l IH]; simpl; [reflexivity|].
  destruct (p (snd x)); simpl; now rewrite IH.
Qed.

Lemma float_eqb_fin (a b : Q) :
  float_eqb (Fin a) (Fin b) =
  negb (float_ltb (Fin b) (Fin a)) && negb (float_ltb (Fin a) (Fin b)).
Proof.
  apply eq_true_iff_eq.
  rewrite andb_true_iff, !negb_true_iff, !float_ltb_fin_false.
  cbn [float_eqb]. rewrite Qeq_bool_iff. split.
  - intros H. rewrite H. split; apply Qle_refl.
  - intros [H1 H2]. now apply Qle_antisym.
Qed.

Lemma filter_none {X : Type} (p : X -> bool) (l : list X) :
  (forall x, In x l -> p x = false) -> List.filter p l = [].
Proof.
  induction l as [|x l IH]; simpl; intros H; [reflexivity|].
  rewrite (H x (or_introl eq_refl)). apply IH. intros y Hy. apply H. now right.
Qed.

(** Sorting pairs with finite keys keeps, for every float [k], the pairs of
    key [k] in their order. *)
Lemma sort_desc_keeps_equal_keys (k : pyfloat) (l : list (pyfloat * dict)) :
  Forall (fun x => is_finite (fst x)) l ->
  List.filter (fun x => float_eqb (fst x) k) (sort_desc float_ltb l) =
  List.filter (fun x => float_eqb (fst x) k) l.
Proof.
  intros Hgood.
  assert (Hsorted : Forall (fun x : pyfloat * dict => is_finite (fst x))
                           (sort_desc float_ltb l)).
  { eapply Permutation_Forall; [symmetry; apply sort_desc_perm | exact Hgood]. }
  destruct k as [q| |].
  - pose proof (sort_desc_stable float_ltb is_finite
                  float_ltb_negtrans (Fin q, (∅ : dict)) l) as St.
    cbn [fst] in St.
    assert (Hext : forall l' : list (pyfloat * dict),
               Forall (fun x => is_finite (fst x)) l' ->
               List.filter (fun x => float_eqb (fst x) (Fin q)) l' =
               List.filter
                 (fun x => negb (float_ltb (Fin q) (fst x)) &&
                           negb (float_ltb (fst x) (Fin q))) l').
    { intros l' Hl'. apply filter_ext_in. intros x Hx.
      rewrite List.Forall_forall in Hl'. destruct (Hl' x Hx) as [a Ha].
      rewrite Ha. apply float_eqb_fin. }
    rewrite (Hext _ Hsorted), (Hext _ Hgood).
    apply St; [eexists; reflexivity | exact Hgood].
  - rewrite !filter_none; [reflexivity| |]; intros x Hx;
      [rewrite List.Forall_forall in Hgood; destruct (Hgood x Hx) as [a ->]
      |rewrite List.Forall_forall in Hsorted; destruct (Hsorted x Hx) as [a ->]];
      reflexivity.
  - rewrite !filter_none; [reflexivity| |]; intros x Hx;
      [rewrite List.Forall_forall in Hgood; destruct (Hgood x Hx) as [a ->]
      |rewrite List.Forall_forall in Hsorted; destruct (Hsorted x Hx) as [a ->]];
      reflexivity.
Qed.

(** What [sorted] returns when every key is a finite float: the same
    records, largest [cpu_percent] first, equal ones in their first order. *)
Lemma sorted_by_cpu_spec (l : list dict) (keys : list pyfloat) :
  map_result cpu_key l = Ok keys ->
  Forall is_finite keys ->
  exists out,
    sorted_by_cpu l = Ok out /\ cpu_descending out /\ stable_by_cpu l out.
Proof.
  intros Hk Hfin.
  destruct (map_result_decorate l keys Hk) as [Hd Hlen].
  pose proof (combine_keyed l keys Hk) as Hinv.
  set (keyed := combine keys l) in *.
  assert (Hgood : Forall (fun x : pyfloat * dict => is_finite (fst x)) keyed).
  { rewrite List.Forall_forall in *. intros x Hx. apply Hfin.
    rewrite <- (map_fst_combine l keys Hlen). now apply in_map. }
  pose proof (sort_desc_perm float_ltb keyed) as Hperm.
  assert (Hinv' : Forall (fun x => cpu_key (snd x) = Ok (fst x))
                         (sort_desc float_ltb keyed)).
  { eapply Permutation_Forall; [symmetry; exact Hperm | exact Hinv]. }
  exists (map snd (sort_desc float_ltb keyed)).
  unfold sorted_by_cpu. rewrite Hd. simpl. split; [reflexivity|].
  split; [|split].
  - exists (map fst (sort_desc float_ltb keyed)). split.
    + now apply map_result_cpu_key_map_snd.
    + apply StronglySorted_map.
      apply (sort_desc_sorted float_ltb is_finite
               float_ltb_asym float_ltb_negtrans keyed Hgood).
  - transitivity (map snd keyed); [now apply Permutation_map|].
    unfold keyed. now rewrite map_snd_combine.
  - intros k.
    transitivity (List.filter (cpu_is k) (map snd keyed));
      [|unfold keyed; now rewrite map_snd_combine].
    rewrite !filter_map_snd. f_equal.
    assert (Hext : forall l' : list (pyfloat * dict),
               Forall (fun x => cpu_key (snd x) = Ok (fst x)) l' ->
               List.filter (fun x => cpu_is k (snd x)) l' =
               List.filter (fun x => float_eqb (fst x) k) l').
    { intros l' Hl'. apply filter_ext_in. intros x Hx.
      rewrite List.Forall_forall in Hl'. unfold cpu_is.
      now rewrite (Hl' x Hx). }
    rewrite (Hext _ Hinv'), (Hext _ Hinv).
    now apply sort_desc_keeps_equal_keys.
Qed.

(** ** Loops *)

Lemma for_each_invariant {X S : Type} (P : S -> Prop)
    (body : S -> X -> result S) (l : list X) (s : S) :
  (forall s x s', P s -> body s x = Ok s' -> P s') ->
  P s -> P (fst (for_each body l s)).
Proof.
  intros Hstep. revert s. induction l as [|x l IH]; simpl; intros s Hs; [exact Hs|].
  destruct (body s x) as [s'|e] eqn:E; [|exact Hs].
  apply IH. eapply Hstep; eauto.
Qed.

Lemma for_each_app {X S : Type} (body : S -> X -> result S) (l1 l2 : list X) (s : S) :
  for_each body (l1 ++ l2)%list s =
  match for_each body l1 s with
  | (s', None) => for_each body l2 s'
  | (s', Some e) => (s', Some e)
  end.
Proof.
  revert s. induction l1 as [|x l1 IH]; simpl; intros s; [reflexivity|].
  destruct (body s x); [apply IH | reflexivity].
Qed.

Lemma Forall_append {X : Type} (P : X -> Prop) (l : list X) (x : X) :
  Forall P l -> P x -> Forall P (append l x).
Proof. intros Hl Hx. unfold append. apply Forall_app. split; auto. Qed.

(** ** Dictionaries *)

Ltac dict_lookup :=
  unfold mkdict; cbn [list_to_map foldr fst snd];
  repeat first [ rewrite lookup_insert_eq
               | rewrite lookup_insert_ne by discriminate
               | rewrite lookup_empty ].

(** ** The psutil backend *)

Lemma psutil_record_cpu proc d :
  psutil_record proc = Ok d ->
  exists f, d !! "cpu_percent" = Some (VFloat f) /\ is_finite f.
Proof.
  unfold psutil_record. intros H.
  destruct (match info_cpu_percent proc with
            | Some q => _ | None => _ end) as [cpu|e] eqn:Ecpu;
    simpl in H; [|discriminate].
  destruct (info_cmdline proc); simpl in H; [|discriminate].
  inversion H; subst; clear H.
  assert (Hfin : is_finite cpu).
  { destruct (info_cpu_percent proc) as [q|].
    - destruct (float_truthy (fin q)).
      + inversion Ecpu. eexists; reflexivity.
      + destruct (call_cpu_percent proc); inversion Ecpu. eexists; reflexivity.
    - destruct (call_cpu_percent proc); inversion Ecpu. eexists; reflexivity. }
  eexists. split; [dict_lookup; reflexivity|].
  destruct (float_truthy cpu); [now apply py_round_finite | now exists 0%Q].
Qed.

Lemma finite_cpu_keys (l : list dict) :
  Forall finite_cpu l ->
  exists keys, map_result cpu_key l = Ok keys /\ Forall is_finite keys.
Proof.
  induction 1 as [|d l [f [Hd Hf]] Hl [keys [Hk Hfin]]]; simpl.
  - exists []. split; [reflexivity | constructor].
  - exists (f :: keys). unfold cpu_key at 1, getitem. rewrite Hd. simpl.
    rewrite Hk. simpl. split; [reflexivity | now constructor].
Qed.

Lemma psutil_step_finite processes proc processes' :
  Forall finite_cpu processes ->
  psutil_step processes proc = Ok processes' ->
  Forall finite_cpu processes'.
Proof.
  unfold psutil_step, try_except. intros Hl H.
  destruct (psutil_record proc) as [d|e] eqn:E; simpl in H.
  - inversion H; subst. apply Forall_append; [exact Hl|].
    now apply psutil_record_cpu with proc.
  - destruct (is_psutil_skip e); inversion H; subst. exact Hl.
Qed.

Lemma psutil_collect_finite procs : Forall finite_cpu (psutil_collect procs).
Proof.
  unfold psutil_collect. apply for_each_invariant; [|constructor].
  intros s x s' Hs Hstep. eapply psutil_step_finite; eauto.
Qed.

(** The psutil backend returns the records it collected sorted descending by
    [cpu_percent], equal values in the order they were met. *)
Lemma psutil_sorted_stable (procs : list psutil_process) :
  exists out,
    _get_processes_psutil procs = Ok out /\
    cpu_descending out /\
    stable_by_cpu (psutil_collect procs) out.
Proof.
  destruct (finite_cpu_keys _ (psutil_collect_finite procs)) as [keys [Hk Hfin]].
  exact (sorted_by_cpu_spec _ keys Hk Hfin).
Qed.

(** ** The backends without CPU figures *)

Lemma zero_cpu_keys (l : list dict) :
  Forall zero_cpu l ->
  map_result cpu_key l = Ok (repeat F0 (List.length l)).
Proof.
  induction 1 as [|d l Hd Hl IH]; simpl; [reflexivity|].
  unfold cpu_key at 1, getitem. rewrite Hd. simpl. now rewrite IH.
Qed.

Lemma repeat_descending (n : nat) : descending (repeat F0 n).
Proof.
  induction n as [|n IH]; simpl; constructor; [exact IH|].
  apply List.Forall_forall. intros x Hx. apply repeat_spec in Hx. now subst.
Qed.

Lemma zero_cpu_descending (l : list dict) : Forall zero_cpu l -> cpu_descending l.
Proof.
  intros H. exists (repeat F0 (List.length l)).
  split; [now apply zero_cpu_keys | apply repeat_descending].
Qed.

Lemma windows_step_zero processes line processes' :
  Forall zero_cpu processes ->
  windows_step processes line = Ok processes' ->
  Forall zero_cpu processes'.
Proof.
  unfold windows_step. intros Hl H.
  destruct (5 <=? _)%nat; [|now inversion H; subst].
  destruct (windows_record _) as [d|e] eqn:E; simpl in H; [|discriminate].
  inversion H; subst. apply Forall_append; [exact Hl|].
  unfold windows_record in E.
  repeat match type of E with
         | bind ?r _ = _ => destruct r; simpl in E; [|discriminate]
         end.
  inversion E; subst. unfold zero_cpu. dict_lookup. reflexivity.
Qed.

Lemma windows_zero_cpu tasklist : Forall zero_cpu (_get_processes_windows tasklist).
Proof.
  destruct tasklist as [stdout|e]; simpl; [|constructor].
  apply for_each_invariant; [|constructor].
  intros s x s'. apply windows_step_zero.
Qed.

Lemma proc_step_zero fs processes pid_dir processes' :
  Forall zero_cpu processes ->
  proc_step fs processes pid_dir = Ok processes' ->
  Forall zero_cpu processes'.
Proof.
  unfold proc_step, try_except, proc_entry. intros Hl H.
  destruct (negb _); [now inversion H; subst|].
  destruct (Parse.py_int pid_dir) as [pid|e]; simpl in H;
    [|destruct (is_proc_skip e); now inversion H; subst].
  destruct (exists_file (stat_file fs pid)); [|now inversion H; subst].
  repeat match type of H with
         | match bind ?r _ with _ => _ end = _ =>
             destruct r as [?|e]; simpl in H;
             [|destruct (is_proc_skip e); now inversion H; subst]
         end.
  inversion H; subst. apply Forall_append; [exact Hl|].
  unfold zero_cpu. dict_lookup. reflexivity.
Qed.

Lemma proc_zero_cpu fs : Forall zero_cpu (_get_processes_proc fs).
Proof.
  unfold _get_processes_proc. destruct (listdir fs); [|constructor].
  apply for_each_invariant; [|constructor].
  intros s x s'. apply proc_step_zero.
Qed.

(** ** The [ps] backend *)

(** C1 (the [ps] backend): [_get_processes_ps] returns the rows in the order
    [ps] wrote them, with no sort. On a host without psutil whose [ps] lists a
    process at 0.5 percent before one at 50.0 percent, [get_process_status]
    returns them in that order, which is not descending by [cpu_percent]. *)
Theorem ps_backend_keeps_command_order :
  get_process_status (__init__ ps_host) ps_host = Ok ps_sample_records /\
  map_result cpu_key ps_sample_records = Ok [Fin (1 # 2); Fin 50] /\
  ~ cpu_descending ps_sample_records.
Proof.
  split; [reflexivity|].
  assert (Hk : map_result cpu_key ps_sample_records = Ok [Fin (1 # 2); Fin 50])
    by reflexivity.
  split; [exact Hk|].
  intros [keys [Hkeys Hdesc]]. rewrite Hk in Hkeys. inversion Hkeys; subst.
  inversion Hdesc as [|? ? _ Hall]; subst.
  inversion Hall as [|? ? Hlt _]; subst.
  vm_compute in Hlt. discriminate.
Qed.

(** ** The pager *)

Section Pager.
Variable processes : list dict.
Variable page_size : Z.
Hypothesis nonempty : processes <> [].
Hypothesis positive_size : 0 < page_size.

Let total := Z.of_nat (List.length processes).
Let last := (total - 1) / page_size.










Variables cpu_count mem_count : Z.
Hypothesis cpu_counted : count_cpu_intensive processes = Ok cpu_count.
Hypothesis mem_counted : count_memory_intensive processes = Ok mem_count.


Let shown := session_page total page_size cpu_count mem_count.



End Pager.



(** ** The Windows backend *)

Lemma index_nth (l : list string) (i : nat) :
  (i < List.length l)%nat -> Str.index l i = Ok (nth i l "").
Proof.
  intros H. unfold Str.index.
  rewrite (nth_error_nth' l "" H). reflexivity.
Qed.

Lemma windows_memory_mb_cases (memory_str : string) :
  windows_memory_mb memory_str =
  match Parse.py_float memory_str with
  | Ok memory_kb => Ok (py_round (float_div_pos memory_kb 1024) 1)
  | Raise ValueError => Ok F0
  | Raise e => Raise e
  end.
Proof.
  unfold windows_memory_mb, try_except.
  destruct (Parse.py_float memory_str) as [kb|[]]; reflexivity.
Qed.

Lemma py_float_raises_ValueError s e : Parse.py_float s = Raise e -> e = ValueError.
Proof.
  unfold Parse.py_float. destruct (Parse.sign _) as [neg t].
  destruct (_ || _); [discriminate|].
  destruct (String.eqb _ _); [discriminate|].
  destruct (Parse.number t) as [[[[i f] nf] r]|]; [|now intros [= <-]].
  destruct (Parse.exponent r) as [[x [|c r']]|]; try discriminate;
    now intros [= <-].
Qed.


Lemma windows_step_short processes line :
  (List.length (windows_parts line) < 5)%nat ->
  windows_step processes line = Ok processes.
Proof.
  intros H. unfold windows_step.
  replace (5 <=? List.length (windows_parts line))%nat with false; [reflexivity|].
  symmetry. apply Nat.leb_gt. exact H.
Qed.

(** The record of a well-formed row. *)
Lemma windows_record_wellformed (parts : list string) (pid : Z) :
  (5 <= List.length parts)%nat ->
  Parse.py_int (nth 1 parts "") = Ok pid ->
  windows_record parts =
  Ok (mkdict
    [ ("pid", VInt pid);
      ("name", VStr (nth 0 parts ""));
      ("cpu_percent", VFloat F0);
      ("memory_percent", VFloat F0);
      ("memory_mb",
        VFloat match Parse.py_float (windows_memory_str (nth 4 parts "")) with
               | Ok memory_kb => py_round (float_div_pos memory_kb 1024) 1
               | Raise _ => F0
               end);
      ("status", VStr (nth 3 parts ""));
      ("username", VStr "unknown") ]).
Proof.
  intros Hlen Hpid. unfold windows_record.
  rewrite !index_nth by lia. cbn [bind].
  replace (3 <? List.length parts)%nat with true
    by (symmetry; apply Nat.ltb_lt; lia).
  rewrite windows_memory_mb_cases, Hpid.
  destruct (Parse.py_float _) as [kb|e] eqn:E; [reflexivity|].
  apply py_float_raises_ValueError in E. subst. reflexivity.
Qed.

Lemma windows_step_wellformed processes line :
  wellformed_row line ->
  exists process,
    windows_record (windows_parts line) = Ok process /\
    windows_step processes line = Ok (append processes process).
Proof.
  intros [Hlen [pid Hpid]].
  eexists. split; [apply windows_record_wellformed; eassumption|].
  unfold windows_step.
  replace (5 <=? List.length (windows_parts line))%nat with true
    by (symmetry; apply Nat.leb_le; exact Hlen).
  rewrite (windows_record_wellformed _ pid Hlen Hpid). reflexivity.
Qed.

(** Over well-formed rows the loop adds one record per row, in order, and
    ends without an exception. *)
Lemma windows_loop_wellformed lines : forall processes,
  Forall wellformed_row lines ->
  exists records,
    map_result (fun line => windows_record (windows_parts line)) lines = Ok records /\
    for_each windows_step lines processes = ((processes ++ records)%list, None).
Proof.
  induction lines as [|line lines IH]; intros processes H.
  - exists []. simpl. now rewrite app_nil_r.
  - inversion H as [|? ? Hline Hrest]; subst.
    destruct (windows_step_wellformed processes line Hline) as [r [Hr Hs]].
    destruct (IH (append processes r) Hrest) as [records [Hm Hl]].
    exists (r :: records). cbn [map_result for_each]. rewrite Hr, Hs, Hm, Hl.
    unfold append. now rewrite <- app_assoc.
Qed.

(** A short row between other rows changes nothing of what the loop does
    with them. *)
Lemma windows_loop_skips_short before line after processes :
  (List.length (windows_parts line) < 5)%nat ->
  for_each windows_step (before ++ line :: after)%list processes =
  for_each windows_step (before ++ after)%list processes.
Proof.
  intros H. rewrite !for_each_app.
  destruct (for_each windows_step before processes) as [s [e|]]; [reflexivity|].
  cbn [for_each]. now rewrite windows_step_short.
Qed.

(** The loop only ever adds records at the end. *)
Lemma windows_loop_extends lines : forall processes,
  exists added,
    fst (for_each windows_step lines processes) = (processes ++ added)%list.
Proof.
  induction lines as [|line lines IH]; intros processes; cbn [for_each].
  - exists []. simpl. now rewrite app_nil_r.
  - destruct (windows_step processes line) as [s|e] eqn:E.
    + destruct (IH s) as [added Ha]. rewrite Ha.
      unfold windows_step in E. destruct (5 <=? _)%nat.
      * destruct (windows_record _) as [r|]; simpl in E; [|discriminate].
        inversion E; subst. unfold append. rewrite <- app_assoc.
        now exists ([r] ++ added)%list.
      * inversion E; subst. now exists added.
    + exists []. simpl. now rewrite app_nil_r.
Qed.

(** C3, as the code has it: a row of fewer than five fields is dropped on
    its own. The rows before and after it give what they give without it, and
    when they all have five fields or more and an integer pid that is one
    record for each of them, in order. *)
Theorem windows_short_row_dropped_alone
    (stdout stdout' : string) (before after : list string) (line : string) :
  data_lines stdout = (before ++ line :: after)%list ->
  data_lines stdout' = (before ++ after)%list ->
  (List.length (windows_parts line) < 5)%nat ->
  _get_processes_windows (Ok stdout) = _get_processes_windows (Ok stdout') /\
  (Forall wellformed_row (before ++ after)%list ->
   exists records,
     map_result (fun row => windows_record (windows_parts row))
       (before ++ after)%list = Ok records /\
     _get_processes_windows (Ok stdout) = records).
Proof.
  intros Hlines Hlines' Hshort.
  assert (Heq : _get_processes_windows (Ok stdout) =
                _get_processes_windows (Ok stdout')).
  { unfold _get_processes_windows. rewrite Hlines, Hlines'.
    now rewrite windows_loop_skips_short. }
  split; [exact Heq|].
  intros Hwf.
  destruct (windows_loop_wellformed _ [] Hwf) as [records [Hm Hl]].
  exists records. split; [exact Hm|].
  rewrite Heq. unfold _get_processes_windows. rewrite Hlines', Hl. reflexivity.
Qed.

(** A row of two fields between the row of notepad.exe and a row without
    memory figure: the output is that of the two other rows. *)
Lemma windows_short_row_example :
  _get_processes_windows
    (Ok (output_of [tasklist_header; notepad_row; short_row; idle_row])) =
  [notepad_record; idle_record] /\
  _get_processes_windows
    (Ok (output_of [tasklist_header; notepad_row; idle_row])) =
  [notepad_record; idle_record].
Proof.
  assert (Hwf : Forall wellformed_row ([notepad_row] ++ [idle_row])%list).
  { repeat constructor; try (exists 1234; reflexivity);
      try (exists 0; reflexivity); simpl; lia. }
  destruct (windows_short_row_dropped_alone
              (output_of [tasklist_header; notepad_row; short_row; idle_row])
              (output_of [tasklist_header; notepad_row; idle_row])
              [notepad_row] [idle_row] short_row
              eq_refl eq_refl ltac:(simpl; lia)) as [Heq Hrec].
  destruct (Hrec Hwf) as [records [Hm Hout]].
  assert (records = [notepad_record; idle_record]) as ->.
  { assert (Hc : map_result (fun row => windows_record (windows_parts row))
                   ([notepad_row] ++ [idle_row])%list =
                 Ok [notepad_record; idle_record]) by reflexivity.
    rewrite Hc in Hm. now inversion Hm. }
  split; [exact Hout | rewrite <- Heq; exact Hout].
Defined.

(** C3, as stated, fails twice. A row whose memory is not a number is not
    dropped: it gives a record. A row whose pid is not a number ends the loop,
    and the well-formed row after it gives no record. *)
Lemma windows_malformed_rows_counterexample :
  _get_processes_windows (Ok (output_of [tasklist_header; notepad_row])) =
    [notepad_record] /\
  _get_processes_windows
    (Ok (output_of [tasklist_header; idle_row; notepad_row])) =
    [idle_record; notepad_record] /\
  _get_processes_windows
    (Ok (output_of [tasklist_header; bad_pid_row; notepad_row])) = [] /\
  Parse.py_float (windows_memory_str "N/A") = Raise ValueError /\
  Parse.py_int "n/a" = Raise ValueError.
Proof. repeat split; reflexivity. Qed.

(** C10: a row of at least five parts with an integer pid whose memory text
    is not a number gives a record all the same, with 0.0 megabytes and the
    other fields of the row; when the rows before it are well formed the
    record is among those returned. *)
Theorem windows_unparsed_memory_defaults (line : string) (pid : Z) :
  (5 <= List.length (windows_parts line))%nat ->
  Parse.py_int (nth 1 (windows_parts line) "") = Ok pid ->
  Parse.py_float (windows_memory_str (nth 4 (windows_parts line) "")) =
    Raise ValueError ->
  let process := mkdict
    [ ("pid", VInt pid);
      ("name", VStr (nth 0 (windows_parts line) ""));
      ("cpu_percent", VFloat F0);
      ("memory_percent", VFloat F0);
      ("memory_mb", VFloat F0);
      ("status", VStr (nth 3 (windows_parts line) ""));
      ("username", VStr "unknown") ] in
  (forall processes, windows_step processes line = Ok (append processes process)) /\
  (forall stdout before after,
      data_lines stdout = (before ++ line :: after)%list ->
      Forall wellformed_row before ->
      In process (_get_processes_windows (Ok stdout))).
Proof.
  intros Hlen Hpid Hmem process.
  assert (Hrec : windows_record (windows_parts line) = Ok process).
  { rewrite (windows_record_wellformed _ pid Hlen Hpid), Hmem. reflexivity. }
  assert (Hstep : forall processes,
             windows_step processes line = Ok (append processes process)).
  { intros processes. unfold windows_step.
    replace (5 <=? List.length (windows_parts line))%nat with true
      by (symmetry; apply Nat.leb_le; exact Hlen).
    now rewrite Hrec. }
  split; [exact Hstep|].
  intros stdout before after Hlines Hwf.
  unfold _get_processes_windows. rewrite Hlines, for_each_app.
  destruct (windows_loop_wellformed before [] Hwf) as [records [_ ->]].
  cbn [for_each]. rewrite Hstep.
  destruct (windows_loop_extends after (append ([] ++ records)%list process))
    as [added ->].
  apply in_or_app. left. unfold append. apply in_or_app. right. now left.
Qed.

(** The row of the idle process, whose memory field is not a number, gives
    its record with 0.0 megabytes. *)
Lemma windows_unparsed_memory_example :
  windows_step [] idle_row = Ok [idle_record] /\
  In idle_record
    (_get_processes_windows
       (Ok (output_of [tasklist_header; notepad_row; idle_row; short_row]))).
Proof.
  destruct (windows_unparsed_memory_defaults idle_row 0
              ltac:(simpl; lia) eq_refl eq_refl) as [Hstep Hin].
  split; [exact (Hstep []) |].
  apply (Hin (output_of [tasklist_header; notepad_row; idle_row; short_row])
             [notepad_row] [short_row] eq_refl).
  constructor; [|constructor].
  split; [simpl; lia | exists 1234; reflexivity].
Defined.

(** ** The [/proc] backend *)

Lemma for_each_extends {X R : Type} (body : list R -> X -> result (list R))
    (l : list X) :
  (forall s x s', body s x = Ok s' -> exists added, s' = (s ++ added)%list) ->
  forall s, exists added, fst (for_each body l s) = (s ++ added)%list.
Proof.
  intros Hext. induction l as [|x l IH]; intros s; cbn [for_each].
  - exists []. simpl. now rewrite app_nil_r.
  - destruct (body s x) as [s'|e] eqn:E.
    + destruct (Hext _ _ _ E) as [a1 ->]. destruct (IH (s ++ a1)%list) as [a2 ->].
      exists (a1 ++ a2)%list. now rewrite app_assoc.
    + exists []. simpl. now rewrite app_nil_r.
Qed.

(** In a loop whose body never raises and only adds records, the record
    that the body adds for [x] is in what the loop returns. *)
Lemma for_each_emits {X R : Type} (body : list R -> X -> result (list R))
    (l : list X) (x : X) (r : R) :
  (forall s y, exists s', body s y = Ok s') ->
  (forall s y s', body s y = Ok s' -> exists added, s' = (s ++ added)%list) ->
  (forall s, body s x = Ok (append s r)) ->
  In x l ->
  forall s, In r (fst (for_each body l s)).
Proof.
  intros Htotal Hext Hx. induction l as [|y l IH]; intros Hin s; [destruct Hin|].
  cbn [for_each]. destruct Hin as [->|Hin].
  - rewrite Hx. destruct (for_each_extends body l Hext (append s r)) as [a ->].
    apply in_or_app. left. unfold append. apply in_or_app. right. now left.
  - destruct (Htotal s y) as [s' ->]. now apply IH.
Qed.

Lemma py_int_raises_ValueError s e : Parse.py_int s = Raise e -> e = ValueError.
Proof.
  unfold Parse.py_int. destruct (Parse.sign _) as [neg t].
  destruct (Parse.digitpart t) as [[[v n] [|c r]]|]; try discriminate;
    now intros [= <-].
Qed.

Lemma index_raises_IndexError {X : Type} (l : list X) i e :
  Str.index l i = Raise e -> e = IndexError.
Proof. unfold Str.index. destruct (nth_error l i); [discriminate | now intros [= <-]]. Qed.

Lemma read_file_raises_OSError f e : read_file f = Raise e -> e = OSError.
Proof. destruct f; simpl; try discriminate; now intros [= <-]. Qed.

Lemma read_vmrss_raises lines memory_kb e :
  read_vmrss lines memory_kb = Raise e -> is_proc_skip e = true.
Proof.
  induction lines as [|line lines IH]; simpl; [discriminate|].
  destruct (Str.startswith "VmRSS:" line); [|exact IH].
  destruct (Str.index _ 1) as [w|e'] eqn:E; simpl.
  - intros H. apply py_int_raises_ValueError in H. now subst.
  - intros [= <-]. apply index_raises_IndexError in E. now subst.
Qed.

Lemma proc_entry_raises fs processes pid_dir e :
  proc_entry fs processes pid_dir = Raise e -> is_proc_skip e = true.
Proof.
  unfold proc_entry.
  destruct (Parse.py_int pid_dir) as [pid|e'] eqn:E1; simpl.
  2: { intros [= <-]. apply py_int_raises_ValueError in E1. now subst. }
  destruct (exists_file (stat_file fs pid)); [|discriminate].
  destruct (read_file (stat_file fs pid)) as [text|e'] eqn:E2; simpl.
  2: { intros [= <-]. apply read_file_raises_OSError in E2. now subst. }
  destruct (Str.index (Str.split_ws text) 1) as [f1|e'] eqn:E3; simpl.
  2: { intros [= <-]. apply index_raises_IndexError in E3. now subst. }
  destruct (Str.index (Str.split_ws text) 2) as [f2|e'] eqn:E4; simpl.
  2: { intros [= <-]. apply index_raises_IndexError in E4. now subst. }
  destruct (exists_file (status_file fs pid)); simpl; [|discriminate].
  destruct (read_file (status_file fs pid)) as [st|e'] eqn:E5; simpl.
  2: { intros [= <-]. apply read_file_raises_OSError in E5. now subst. }
  destruct (read_vmrss _ 0) as [kb|e'] eqn:E6; simpl; [discriminate|].
  intros [= <-]. now apply read_vmrss_raises in E6.
Qed.

(** No entry of [/proc] makes the loop raise. *)
Lemma proc_step_total fs processes pid_dir :
  exists processes', proc_step fs processes pid_dir = Ok processes'.
Proof.
  unfold proc_step, try_except. destruct (negb _); [eauto|].
  destruct (proc_entry fs processes pid_dir) as [s|e] eqn:E; [eauto|].
  rewrite (proc_entry_raises _ _ _ _ E). eauto.
Qed.

Lemma proc_step_extends fs processes pid_dir processes' :
  proc_step fs processes pid_dir = Ok processes' ->
  exists added, processes' = (processes ++ added)%list.
Proof.
  unfold proc_step, try_except.
  destruct (negb _); [intros [= <-]; exists []; now rewrite app_nil_r|].
  destruct (proc_entry fs processes pid_dir) as [s|e] eqn:E.
  - intros [= <-]. unfold proc_entry in E.
    repeat match type of E with
           | bind ?r _ = _ => destruct r; simpl in E; [|discriminate]
           | (if ?b then _ else _) = _ => destruct b
           end;
      inversion E; subst;
      first [eexists; unfold append; reflexivity | exists []; now rewrite app_nil_r].
  - destruct (is_proc_skip e); [|discriminate].
    intros [= <-]. exists []. now rewrite app_nil_r.
Qed.

Lemma read_vmrss_first before line after word kb :
  Forall (fun l => Str.startswith "VmRSS:" l = false) before ->
  Str.startswith "VmRSS:" line = true ->
  Str.index (Str.split_ws line) 1 = Ok word ->
  Parse.py_int word = Ok kb ->
  read_vmrss (before ++ line :: after)%list 0 = Ok kb.
Proof.
  intros Hb Hl Hw Hk. induction Hb as [|l before Hl' Hb IH]; simpl.
  - now rewrite Hl, Hw.
  - now rewrite Hl'.
Qed.

(** C4, as the code has it: with a stat file [123 (myproc) S ...] and a
    status file whose first [VmRSS:] line is [VmRSS:    2048 kB], the entry
    [123] of [/proc] gives the record with pid 123, name myproc, status S,
    [cpu_percent] and [memory_percent] 0.0, and the resident size as the
    number of kilobytes read, 2048, under [memory_kb]. The record has no field
    in bytes. *)
Theorem proc_record_keeps_kilobytes
    (fs : procfs) (entries : list string)
    (stat status : string) (rest before after : list string) :
  listdir fs = Ok entries ->
  In "123" entries ->
  stat_file fs 123 = Content stat ->
  Str.split_ws stat = "123" :: "(myproc)" :: "S" :: rest ->
  status_file fs 123 = Content status ->
  Str.split newline status = (before ++ "VmRSS:    2048 kB" :: after)%list ->
  Forall (fun line => Str.startswith "VmRSS:" line = false) before ->
  In myproc_record (_get_processes_proc fs) /\
  myproc_record !! "pid" = Some (VInt 123) /\
  myproc_record !! "name" = Some (VStr "myproc") /\
  myproc_record !! "status" = Some (VStr "S") /\
  myproc_record !! "memory_kb" = Some (VInt 2048) /\
  myproc_record !! "cpu_percent" = Some (VFloat F0) /\
  myproc_record !! "memory_percent" = Some (VFloat F0) /\
  myproc_record !! "rss" = None.
Proof.
  intros Hlist Hin Hstat Hwords Hstatus Hlines Hbefore.
  split; [|repeat split; reflexivity].
  unfold _get_processes_proc. rewrite Hlist.
  apply for_each_emits with (x := "123"); try exact Hin.
  - intros s y. apply proc_step_total.
  - intros s y s'. apply proc_step_extends.
  - intros s. unfold proc_step.
    replace (negb (Str.isdigit "123")) with false by reflexivity.
    unfold proc_entry.
    replace (Parse.py_int "123") with (Ok (A := Z) 123) by reflexivity.
    cbn [bind]. rewrite Hstat, Hstatus. cbn [exists_file read_file bind].
    rewrite Hwords, Hlines.
    rewrite (read_vmrss_first before "VmRSS:    2048 kB" after "2048" 2048
               Hbefore eq_refl eq_refl eq_refl).
    reflexivity.
Qed.

(** The scenario on a [/proc] that lists the process 123 and one entry
    that is no process. *)
Lemma proc_sample_record :
  _get_processes_proc proc_sample = [myproc_record] /\
  get_process_status (__init__ proc_host) proc_host = Ok [myproc_record] /\
  In myproc_record (_get_processes_proc proc_sample).
Proof.
  split; [reflexivity|]. split; [reflexivity|].
  apply (proc_record_keeps_kilobytes proc_sample ["123"; "cpuinfo"]
           myproc_stat myproc_status
           ["1"; "123"; "123"; "0"; "-1"; "4194560"]
           ["Name:   myproc"; "VmPeak:     4096 kB"]
           ["Threads:        1"; ""]);
    try reflexivity.
  - left; reflexivity.
  - repeat constructor.
Defined.

(** C4, as stated, fails: the record of the scenario holds the resident
    size as 2048 under [memory_kb], which is not 2048*1024, and it has no
    [rss] field nor any other that holds 2048*1024. *)
Lemma proc_record_not_in_bytes :
  _get_processes_proc proc_sample = [myproc_record] /\
  myproc_record !! "memory_kb" = Some (VInt 2048) /\
  myproc_record !! "memory_kb" <> Some (VInt (2048 * 1024)) /\
  myproc_record !! "rss" = None /\
  map snd (map_to_list myproc_record) =
    [ VStr "S"; VFloat F0; VInt 2048; VFloat F0; VStr "unknown";
      VStr "myproc"; VInt 123 ].
Proof. repeat split; try reflexivity. discriminate. Qed.

(** ** The fields of the records *)

Ltac fields :=
  repeat split;
  first [ eexists; dict_lookup; reflexivity | dict_lookup; reflexivity ].











(** ** The fallback snapshot *)

Lemma for_each_invariant_in {X S : Type} (P : S -> Prop)
    (body : S -> X -> result S) (l : list X) (s : S) :
  (forall s x s', In x l -> P s -> body s x = Ok s' -> P s') ->
  P s -> P (fst (for_each body l s)).
Proof.
  revert s. induction l as [|x l IH]; simpl; intros s Hstep Hs; [exact Hs|].
  destruct (body s x) as [s'|e] eqn:E; [|exact Hs].
  apply IH.
  - intros s0 y s0' Hy. apply Hstep. now right.
  - eapply Hstep; eauto.
Qed.

Section FallbackInfo.
Variable fb : fallback_system.

Let linux_supplied (info : dict) : Prop :=
  forall k v, info !! k = Some v ->
    (k = "memory_total_gb" /\ meminfo_supplies fb "MemTotal:" v) \/
    (k = "memory_available_gb" /\ meminfo_supplies fb "MemAvailable:" v) \/
    (k = "load_average" /\ loadavg_supplies fb v).

Lemma meminfo_line_supplied text info line info' :
  meminfo fb = Content text ->
  In line (Str.split newline text) ->
  linux_supplied info ->
  meminfo_line info line = Ok info' ->
  linux_supplied info'.
Proof.
  intros Hfile Hin Hinfo. unfold meminfo_line.
  destruct (Str.startswith "MemTotal:" line) eqn:E1;
    [|destruct (Str.startswith "MemAvailable:" line) eqn:E2].
  - destruct (Str.index _ 1) as [word|] eqn:Ew; simpl; [|discriminate].
    destruct (Parse.py_int word) as [kb|] eqn:Ek; simpl; [|discriminate].
    intros [= <-] k v Hk. apply lookup_insert_Some in Hk as [[<- <-]|[_ Hk]];
      [|now apply Hinfo].
    left. split; [reflexivity|]. now exists text, line, word, kb.
  - destruct (Str.index _ 1) as [word|] eqn:Ew; simpl; [|discriminate].
    destruct (Parse.py_int word) as [kb|] eqn:Ek; simpl; [|discriminate].
    intros [= <-] k v Hk. apply lookup_insert_Some in Hk as [[<- <-]|[_ Hk]];
      [|now apply Hinfo].
    right; left. split; [reflexivity|]. now exists text, line, word, kb.
  - now intros [= <-].
Qed.

Lemma read_meminfo_supplied info :
  linux_supplied info -> linux_supplied (fst (read_meminfo (meminfo fb) info)).
Proof.
  intros Hinfo. unfold read_meminfo.
  destruct (meminfo fb) as [| |text] eqn:Hfile; simpl; try exact Hinfo.
  apply for_each_invariant_in; [|exact Hinfo].
  intros s x s' Hin Hs. now apply meminfo_line_supplied with text.
Qed.

Lemma read_loadavg_supplied info :
  linux_supplied info -> linux_supplied (fst (read_loadavg (loadavg fb) info)).
Proof.
  intros Hinfo. unfold read_loadavg.
  destruct (loadavg fb) as [| |text] eqn:Hfile; simpl; try exact Hinfo.
  destruct (map_result Parse.py_float _) as [floats|e] eqn:Ef; simpl;
    [|exact Hinfo].
  intros k v Hk. apply lookup_insert_Some in Hk as [[<- <-]|[_ Hk]];
    [|now apply Hinfo].
  right; right. split; [reflexivity|]. now exists text, floats.
Qed.

Lemma try_pass_fst handled outcome info :
  try_pass handled outcome = Ok info -> info = fst outcome.
Proof.
  destruct outcome as [s [e|]]; simpl; [|now intros [= <-]].
  destruct (handled e); [now intros [= <-] | discriminate].
Qed.

Lemma linux_info_supplied info :
  _get_linux_system_info fb = Ok info -> linux_supplied info.
Proof.
  unfold _get_linux_system_info.
  destruct (try_pass is_OSError (read_meminfo (meminfo fb) ∅))
    as [info1|] eqn:E1; simpl; [|discriminate].
  destruct (try_pass is_OSError (read_loadavg (loadavg fb) info1))
    as [info2|] eqn:E2; simpl; [|discriminate].
  intros [= <-].
  apply try_pass_fst in E1, E2. subst.
  apply read_loadavg_supplied, read_meminfo_supplied.
  intros k v Hk. now rewrite lookup_empty in Hk.
Qed.

Lemma macos_info_supplied info :
  _get_macos_system_info fb = Ok info ->
  forall k v, info !! k = Some v ->
    k = "vm_stat_available" /\ vm_stat fb = Ok 0 /\ v = VBool true.
Proof.
  unfold _get_macos_system_info. intros H k v Hk.
  apply try_pass_fst in H. subst.
  destruct (vm_stat fb) as [returncode|e]; simpl in Hk;
    [|now rewrite lookup_empty in Hk].
  destruct (returncode =? 0) eqn:Er; simpl in Hk;
    [|now rewrite lookup_empty in Hk].
  apply Z.eqb_eq in Er. subst.
  apply lookup_insert_Some in Hk as [[<- <-]|[_ Hk]];
    [auto | now rewrite lookup_empty in Hk].
Qed.

Lemma wmic_line_supplied stdout info line info' :
  wmic fb = Ok (0, stdout) ->
  In line (Str.split newline stdout) ->
  (forall k v, info !! k = Some v ->
     k = "memory_total_gb" /\ wmic_supplies fb v) ->
  wmic_line info line = Ok info' ->
  forall k v, info' !! k = Some v ->
    k = "memory_total_gb" /\ wmic_supplies fb v.
Proof.
  intros Hw Hin Hinfo. unfold wmic_line.
  destruct (Str.contains _ line) eqn:Ec; [|now intros [= <-]].
  destruct (Str.index _ 1) as [word|] eqn:Ew; simpl; [|discriminate].
  destruct (Parse.py_int word) as [b|] eqn:Eb; simpl; [|discriminate].
  intros [= <-] k v Hk. apply lookup_insert_Some in Hk as [[<- <-]|[_ Hk]];
    [|now apply Hinfo].
  split; [reflexivity|]. now exists stdout, line, word, b.
Qed.

Lemma windows_info_supplied info :
  _get_windows_system_info fb = Ok info ->
  forall k v, info !! k = Some v ->
    k = "memory_total_gb" /\ wmic_supplies fb v.
Proof.
  unfold _get_windows_system_info. intros H.
  apply try_pass_fst in H. subst.
  destruct (wmic fb) as [[returncode stdout]|e] eqn:Hw; simpl;
    try (intros k v Hk; now rewrite lookup_empty in Hk).
  destruct (returncode =? 0) eqn:Er; simpl;
    try (intros k v Hk; now rewrite lookup_empty in Hk).
  apply Z.eqb_eq in Er. subst.
  apply (for_each_invariant_in
           (fun info : dict => forall k v, info !! k = Some v ->
              k = "memory_total_gb" /\ wmic_supplies fb v)).
  - intros s x s' Hin Hs. now apply wmic_line_supplied with stdout.
  - intros k v Hk. now rewrite lookup_empty in Hk.
Qed.
End FallbackInfo.

Lemma base_info_fields (a b c : string) (n : value) k v :
  mkdict [ ("system", VStr a); ("platform", VStr b);
           ("architecture", VStr c); ("cpu_cores_logical", n) ] !! k = Some v ->
  base_field k.
Proof.
  unfold mkdict, base_field. cbn [list_to_map foldr fst snd]. intros H.
  repeat (apply lookup_insert_Some in H as [[<- _]|[_ H]]; [tauto|]).
  now rewrite lookup_empty in H.
Qed.

Lemma update_lookup_base (base other : dict) k :
  other !! k = None -> update base other !! k = base !! k.
Proof. intros H. unfold update. now apply lookup_union_r. Qed.

Lemma update_lookup_Some (base other : dict) k v :
  update base other !! k = Some v ->
  other !! k = Some v \/ base !! k = Some v.
Proof.
  unfold update. intros H. apply lookup_union_Some_raw in H. tauto.
Qed.

(** C7, as the code has it: a snapshot of the fallback collector always has
    [system], [platform], [architecture] and [cpu_cores_logical], the last
    with the text ['unknown'] in place of a core count that the system does
    not give. Any other field of the snapshot was read from its source on this
    system and holds what was read: a missing or unreadable source leaves the
    field out, and nothing is filled with zero. *)
Theorem fallback_snapshot_fields (self : SystemMonitor) (h : host) (info : dict) :
  PSUTIL_AVAILABLE h = false ->
  get_detailed_system_status self h = Ok info ->
  info !! "system" = Some (VStr (platform_system h)) /\
  info !! "platform" = Some (VStr (platform_platform h)) /\
  info !! "architecture" = Some (VStr (platform_architecture h)) /\
  info !! "cpu_cores_logical" =
    Some (cpu_count_or_unknown (os_cpu_count (fallback h))) /\
  cpu_count_or_unknown None = VStr "unknown" /\
  forall k v,
    info !! k = Some v ->
    base_field k \/ optional_supplied (self_system self) (fallback h) k v.
Proof.
  intros Hps. unfold get_detailed_system_status. rewrite Hps.
  unfold _get_system_info_fallback.
  set (base := mkdict _).
  assert (Hbase : forall other : dict,
             (forall k v, other !! k = Some v ->
                optional_supplied (self_system self) (fallback h) k v) ->
             update base other !! "system" = Some (VStr (platform_system h)) /\
             update base other !! "platform" = Some (VStr (platform_platform h)) /\
             update base other !! "architecture" =
               Some (VStr (platform_architecture h)) /\
             update base other !! "cpu_cores_logical" =
               Some (cpu_count_or_unknown (os_cpu_count (fallback h))) /\
             cpu_count_or_unknown None = VStr "unknown" /\
             forall k v,
               update base other !! k = Some v ->
               base_field k \/
               optional_supplied (self_system self) (fallback h) k v).
  { intros other Hother.
    assert (Hnone : forall k, base_field k -> other !! k = None).
    { intros k Hk. destruct (other !! k) as [v|] eqn:E; [|reflexivity].
      exfalso. apply Hother in E. unfold optional_supplied in E.
      destruct Hk as [-> | [-> | [-> | ->]]];
        repeat (destruct E as [E|E]); destruct E as (_ & E & _); discriminate. }
    repeat split.
    1-4: rewrite update_lookup_base by (apply Hnone; unfold base_field; tauto);
         reflexivity.
    intros k v Hk. apply update_lookup_Some in Hk as [Hk|Hk].
    - right. now apply Hother.
    - left. now apply base_info_fields in Hk. }
  destruct (String.eqb (self_system self) "linux") eqn:E1;
    [|destruct (String.eqb (self_system self) "darwin") eqn:E2;
      [|destruct (String.eqb (self_system self) "windows") eqn:E3]].
  - apply String.eqb_eq in E1.
    destruct (_get_linux_system_info (fallback h)) as [other|] eqn:E;
      simpl; [|discriminate].
    intros [= <-]. apply Hbase. intros k v Hk.
    apply (linux_info_supplied _ _ E) in Hk. unfold optional_supplied. tauto.
  - apply String.eqb_eq in E2.
    destruct (_get_macos_system_info (fallback h)) as [other|] eqn:E;
      simpl; [|discriminate].
    intros [= <-]. apply Hbase. intros k v Hk.
    apply (macos_info_supplied _ _ E) in Hk. unfold optional_supplied. tauto.
  - apply String.eqb_eq in E3.
    destruct (_get_windows_system_info (fallback h)) as [other|] eqn:E;
      simpl; [|discriminate].
    intros [= <-]. apply Hbase. intros k v Hk.
    apply (windows_info_supplied _ _ E) in Hk. unfold optional_supplied. tauto.
  - intros [= <-].
    replace base with (update base ∅)
      by (unfold update; apply (left_id_L ∅ (∪))).
    apply Hbase. intros k v Hk. now rewrite lookup_empty in Hk.
Qed.

(** A Linux machine with a readable [/proc/meminfo], no [/proc/loadavg] and
    no core count: the two memory sizes are there as read, the load average
    is left out, the core count is the text ['unknown']. *)
Lemma linux_snapshot_fields :
  get_detailed_system_status (__init__ linux_host) linux_host = Ok linux_snapshot /\
  linux_snapshot !! "cpu_cores_logical" = Some (VStr "unknown") /\
  linux_snapshot !! "load_average" = None /\
  meminfo_supplies linux_fallback "MemTotal:" (VFloat (Fin (781 # 50))).
Proof.
  assert (Hrun : get_detailed_system_status (__init__ linux_host) linux_host =
                 Ok linux_snapshot) by reflexivity.
  destruct (fallback_snapshot_fields (__init__ linux_host) linux_host
              linux_snapshot eq_refl Hrun)
    as (_ & _ & _ & Hcores & _ & Hfields).
  split; [exact Hrun|]. split; [exact Hcores|]. split; [reflexivity|].
  destruct (Hfields "memory_total_gb" (VFloat (Fin (781 # 50))) eq_refl)
    as [Hb|Ho].
  - destruct Hb as [Hb|[Hb|[Hb|Hb]]]; discriminate.
  - destruct Ho as [(_ & _ & Hm)|[(_ & Hk & _)|[(_ & Hk & _)|[(Hs & _)|(Hs & _)]]]].
    + exact Hm.
    + discriminate Hk.
    + discriminate Hk.
    + vm_compute in Hs. discriminate Hs.
    + vm_compute in Hs. discriminate Hs.
Defined.

(** C7, as stated, fails: on a machine that gives no core count and has
    nothing else to read, the snapshot has [cpu_cores_logical] all the same,
    holding the text ['unknown']. *)
Lemma snapshot_core_count_placeholder :
  os_cpu_count (fallback (bare_host "Linux")) = None /\
  get_detailed_system_status (__init__ (bare_host "Linux")) (bare_host "Linux") =
    Ok bare_snapshot /\
  bare_snapshot !! "cpu_cores_logical" = Some (VStr "unknown").
Proof. repeat split; reflexivity. Qed.

(** A line of [/proc/meminfo] that does not parse is not swallowed: the
    [ValueError] leaves [get_detailed_system_status]. *)
Lemma linux_meminfo_parse_failure_propagates :
  get_detailed_system_status
    (__init__ (with_fallback (bare_host "Linux") garbled_fallback))
    (with_fallback (bare_host "Linux") garbled_fallback) = Raise ValueError.
Proof. reflexivity. Qed.

(** ** The counts of the footer *)





(** ** Two calls for the snapshot *)

(** C9: two successive calls of [get_detailed_system_status], on a machine
    that at both moments reports the same raw system data (what psutil or the
    fallback sources give, and the three [platform] texts), return the same
    snapshot and leave the monitor as it was. Whatever else changed on the
    machine between the calls, its processes and the output of its commands,
    has no part in the snapshot. *)
Theorem snapshot_determined_by_raw_data (self : SystemMonitor) (h1 h2 : host) :
  PSUTIL_AVAILABLE h1 = PSUTIL_AVAILABLE h2 ->
  psutil_snapshot h1 = psutil_snapshot h2 ->
  fallback h1 = fallback h2 ->
  platform_system h1 = platform_system h2 ->
  platform_platform h1 = platform_platform h2 ->
  platform_architecture h1 = platform_architecture h2 ->
  let (first, self1) := call get_detailed_system_status self h1 in
  let (second, self2) := call get_detailed_system_status self1 h2 in
  first = second /\ self2 = self.
Proof.
  intros Hps Hsnap Hfb Hsys Hplat Harch.
  unfold call. split; [|reflexivity].
  unfold get_detailed_system_status, _get_system_info_psutil,
    _get_system_info_fallback.
  now rewrite Hps, Hsnap, Hfb, Hsys, Hplat, Harch.
Qed.

(** The same figures from psutil before and after the processes of the
    machine changed: the same snapshot. *)
Lemma snapshot_twice_on_sample :
  get_detailed_system_status (__init__ machine_before) machine_before =
    Ok psutil_snapshot_sample /\
  get_detailed_system_status (__init__ machine_before) machine_after =
    Ok psutil_snapshot_sample /\
  psutil_processes machine_before <> psutil_processes machine_after.
Proof.
  pose proof (snapshot_determined_by_raw_data (__init__ machine_before)
                machine_before machine_after
                eq_refl eq_refl eq_refl eq_refl eq_refl eq_refl) as H.
  unfold call in H. destruct H as [H _].
  assert (Hfirst : get_detailed_system_status (__init__ machine_before)
                     machine_before = Ok psutil_snapshot_sample)
    by reflexivity.
  split; [exact Hfirst|]. split; [|discriminate].
  rewrite <- H. exact Hfirst.
Defined.

(** ** From the backends to the pages *)


(** * Further properties of the code *)

(** ** The psutil backend: order, skipped processes, the end of the loop *)

Lemma float_truthy_fin (q : Q) : float_truthy (fin q) = negb (Qeq_bool q 0).
Proof.
  unfold fin, float_truthy. f_equal. apply eq_true_iff_eq.
  rewrite !Qeq_bool_iff. now rewrite Qred_correct.
Qed.

(** X1: with psutil, [get_process_status] returns the records it collected
    sorted by [cpu_percent], largest first, records of equal [cpu_percent] in
    the order psutil listed them, none lost and none added. *)
Theorem psutil_status_sorted (self : SystemMonitor) (h : host)
    (procs : list psutil_process) :
  psutil_processes h = Some procs ->
  exists out,
    get_process_status self h = Ok out /\
    cpu_descending out /\
    stable_by_cpu (psutil_collect procs) out.
Proof.
  intros Hp. unfold get_process_status. rewrite Hp.
  apply psutil_sorted_stable.
Qed.

(** Three processes, the busy one listed second: it comes first, the two
    idle ones follow in the order psutil gave them. *)
Lemma psutil_status_sorted_example :
  exists out,
    get_process_status (__init__ (psutil_host [late_process; busy_process; idle_process]))
      (psutil_host [late_process; busy_process; idle_process]) = Ok out /\
    map pid_of out = [2; 5; 1] /\
    cpu_descending out.
Proof.
  destruct (psutil_status_sorted
              (__init__ (psutil_host [late_process; busy_process; idle_process]))
              (psutil_host [late_process; busy_process; idle_process])
              [late_process; busy_process; idle_process] eq_refl)
    as [out [Hrun [Hdesc _]]].
  exists out. split; [exact Hrun|]. split; [|exact Hdesc].
  assert (Hc : exists out',
             get_process_status
               (__init__ (psutil_host [late_process; busy_process; idle_process]))
               (psutil_host [late_process; busy_process; idle_process]) = Ok out' /\
             map pid_of out' = [2; 5; 1])
    by (eexists; split; reflexivity).
  destruct Hc as [out' [Hrun' Hpids]].
  rewrite Hrun in Hrun'. injection Hrun' as <-. exact Hpids.
Defined.

Lemma psutil_step_skip processes p e :
  (forall q, info_cpu_percent p = Some q -> (q == 0)%Q) ->
  call_cpu_percent p = Raise e ->
  is_psutil_skip e = true ->
  psutil_step processes p = Ok processes.
Proof.
  intros Hzero Hcall Hskip. unfold psutil_step, psutil_record.
  destruct (info_cpu_percent p) as [q|] eqn:Eq.
  - rewrite float_truthy_fin.
    replace (Qeq_bool q 0) with true
      by (symmetry; apply Qeq_bool_iff; now apply Hzero).
    cbn [negb]. rewrite Hcall. simpl. now rewrite Hskip.
  - rewrite Hcall. simpl. now rewrite Hskip.
Qed.

(** X2: a process that psutil lists without a processor figure (none, or
    0.0) and whose [cpu_percent()] then raises [NoSuchProcess], [AccessDenied]
    or [ZombieProcess] is skipped on its own: the listing is that of the other
    processes. *)
Theorem psutil_unreadable_process_skipped
    (before after : list psutil_process) (p : psutil_process) (e : exn) :
  (forall q, info_cpu_percent p = Some q -> (q == 0)%Q) ->
  call_cpu_percent p = Raise e ->
  is_psutil_skip e = true ->
  _get_processes_psutil (before ++ p :: after)%list =
  _get_processes_psutil (before ++ after)%list.
Proof.
  intros Hzero Hcall Hskip.
  unfold _get_processes_psutil, psutil_collect. rewrite !for_each_app.
  destruct (for_each psutil_step before []) as [s [x|]]; [reflexivity|].
  cbn [for_each]. now rewrite (psutil_step_skip s p e Hzero Hcall Hskip).
Qed.

(** A process that is gone, between two that are there. *)
Lemma psutil_unreadable_process_example :
  _get_processes_psutil [busy_process; gone_process; late_process] =
  _get_processes_psutil [busy_process; late_process] /\
  exists out,
    _get_processes_psutil [busy_process; gone_process; late_process] = Ok out /\
    map pid_of out = [2; 5].
Proof.
  split.
  - apply (psutil_unreadable_process_skipped [busy_process] [late_process]
             gone_process NoSuchProcess).
    + intros q H. discriminate H.
    + reflexivity.
    + reflexivity.
  - eexists. split; reflexivity.
Defined.

Lemma psutil_step_no_cmdline processes p :
  info_cmdline p = None ->
  (exists q, info_cpu_percent p = Some q /\ ~ (q == 0)%Q) \/
  (exists c, call_cpu_percent p = Ok c) ->
  psutil_step processes p = Raise TypeError.
Proof.
  intros Hcmd Hcpu. unfold psutil_step, psutil_record. rewrite Hcmd.
  assert (Hok : exists cpu,
             match info_cpu_percent p with
             | Some q =>
                 if float_truthy (fin q) then Ok (fin q)
                 else (let* c := call_cpu_percent p in Ok (fin c))
             | None => let* c := call_cpu_percent p in Ok (fin c)
             end = Ok cpu).
  { destruct Hcpu as [[q [Hq Hne]]|[c Hc]].
    - rewrite Hq, float_truthy_fin.
      replace (Qeq_bool q 0) with false; [simpl; eauto|].
      symmetry. apply not_true_iff_false. now rewrite Qeq_bool_iff.
    - rewrite Hc. destruct (info_cpu_percent p) as [q|];
        [destruct (float_truthy (fin q))|]; simpl; eauto. }
  destruct Hok as [cpu ->]. reflexivity.
Qed.

(** X3: a process whose command line psutil reports as [None], and whose
    processor figure can be read, ends the enumeration: [' '.join(None)] raises
    a [TypeError] that the inner handler does not catch, and the listing is
    that of the processes before it. *)
Theorem psutil_missing_cmdline_ends_listing
    (before after : list psutil_process) (p : psutil_process) :
  info_cmdline p = None ->
  (exists q, info_cpu_percent p = Some q /\ ~ (q == 0)%Q) \/
  (exists c, call_cpu_percent p = Ok c) ->
  _get_processes_psutil (before ++ p :: after)%list =
  _get_processes_psutil before.
Proof.
  intros Hcmd Hcpu.
  unfold _get_processes_psutil, psutil_collect. rewrite for_each_app.
  destruct (for_each psutil_step before []) as [s [x|]]; [reflexivity|].
  cbn [for_each]. now rewrite (psutil_step_no_cmdline s p Hcmd Hcpu).
Qed.

(** The busy process is listed; the one after the process without command
    line is not. *)
Lemma psutil_missing_cmdline_example :
  _get_processes_psutil [busy_process; guarded_process; late_process] =
  _get_processes_psutil [busy_process] /\
  exists out,
    _get_processes_psutil [busy_process; guarded_process; late_process] = Ok out /\
    map pid_of out = [2].
Proof.
  split.
  - apply (psutil_missing_cmdline_ends_listing [busy_process] [late_process]
             guarded_process eq_refl).
    left. exists (3 # 2)%Q. split; [reflexivity | discriminate].
  - eexists. split; reflexivity.
Defined.

(** ** The Windows backend: a pid that is not a number *)

Lemma windows_memory_mb_total memory_str :
  exists memory_mb, windows_memory_mb memory_str = Ok memory_mb.
Proof.
  rewrite windows_memory_mb_cases.
  destruct (Parse.py_float memory_str) as [kb|e] eqn:E; [eauto|].
  apply py_float_raises_ValueError in E. subst. eauto.
Qed.

Lemma windows_step_bad_pid processes line :
  (5 <= List.length (windows_parts line))%nat ->
  Parse.py_int (nth 1 (windows_parts line) "") = Raise ValueError ->
  windows_step processes line = Raise ValueError.
Proof.
  intros Hlen Hpid. unfold windows_step.
  replace (5 <=? List.length (windows_parts line))%nat with true
    by (symmetry; apply Nat.leb_le; exact Hlen).
  unfold windows_record. rewrite !index_nth by lia. cbn [bind].
  destruct (windows_memory_mb_total
              (windows_memory_str (nth 4 (windows_parts line) ""))) as [mb ->].
  cbn [bind]. rewrite Hpid. reflexivity.
Qed.

(** X4: in the Windows backend a row of at least five fields whose pid is
    not an integer ends the loop: [int(parts[1])] raises outside the inner
    [try], and the listing is that of the rows before it, the rows after it
    being lost. *)
Theorem windows_bad_pid_ends_listing
    (stdout stdout_before : string) (before after : list string) (line : string) :
  data_lines stdout = (before ++ line :: after)%list ->
  data_lines stdout_before = before ->
  (5 <= List.length (windows_parts line))%nat ->
  Parse.py_int (nth 1 (windows_parts line) "") = Raise ValueError ->
  _get_processes_windows (Ok stdout) = _get_processes_windows (Ok stdout_before).
Proof.
  intros Hlines Hbefore Hlen Hpid.
  unfold _get_processes_windows. rewrite Hlines, Hbefore, for_each_app.
  destruct (for_each windows_step before []) as [s [x|]]; [reflexivity|].
  cbn [for_each]. now rewrite (windows_step_bad_pid s line Hlen Hpid).
Qed.

(** The row of notepad.exe is listed; the row after the one without a pid
    is not. *)
Lemma windows_bad_pid_example :
  _get_processes_windows
    (Ok (output_of [tasklist_header; notepad_row; bad_pid_row; idle_row])) =
  [notepad_record].
Proof.
  rewrite (windows_bad_pid_ends_listing
             (output_of [tasklist_header; notepad_row; bad_pid_row; idle_row])
             (output_of [tasklist_header; notepad_row])
             [notepad_row] [idle_row] bad_pid_row
             eq_refl eq_refl ltac:(simpl; lia) eq_refl).
  reflexivity.
Defined.

(** ** The [ps] backend: rows that give no record *)

Lemma ps_step_cases processes line :
  ps_step processes line = Ok processes \/
  exists process, ps_step processes line = Ok (append processes process).
Proof.
  unfold ps_step, try_except.
  destruct (5 <=? List.length (Str.split_ws_max 5 line))%nat eqn:Elen; [|now left].
  apply Nat.leb_le in Elen.
  rewrite !index_nth by lia. cbn [bind].
  destruct (Parse.py_int _) as [pid|e] eqn:E1; cbn [bind].
  2: { apply py_int_raises_ValueError in E1. subst. now left. }
  destruct (Parse.py_float (nth 2 _ "")) as [cpu|e] eqn:E2; cbn [bind].
  2: { apply py_float_raises_ValueError in E2. subst. now left. }
  destruct (Parse.py_float (nth 3 _ "")) as [mem|e] eqn:E3; cbn [bind].
  2: { apply py_float_raises_ValueError in E3. subst. now left. }
  destruct (5 <? List.length (Str.split_ws_max 5 line))%nat eqn:E5.
  - apply Nat.ltb_lt in E5. rewrite index_nth by lia. cbn [bind]. right. eauto.
  - cbn [bind]. right. eauto.
Qed.

Lemma ps_loop_completes lines : forall processes,
  snd (for_each ps_step lines processes) = None.
Proof.
  induction lines as [|line lines IH]; intros processes; [reflexivity|].
  cbn [for_each].
  destruct (ps_step_cases processes line) as [->|[r ->]]; apply IH.
Qed.

Lemma ps_step_rejected processes line :
  ps_rejected line -> ps_step processes line = Ok processes.
Proof.
  unfold ps_rejected, ps_step, try_except. intros H.
  destruct (5 <=? List.length (Str.split_ws_max 5 line))%nat eqn:Elen;
    [|reflexivity].
  apply Nat.leb_le in Elen.
  destruct H as [H|H]; [lia|].
  rewrite !index_nth by lia. cbn [bind].
  destruct H as [->|H]; [reflexivity|].
  destruct (Parse.py_int _) as [pid|e] eqn:E1; cbn [bind].
  2: { apply py_int_raises_ValueError in E1. now subst. }
  destruct H as [->|H]; [reflexivity|].
  destruct (Parse.py_float (nth 2 _ "")) as [cpu|e] eqn:E2; cbn [bind].
  2: { apply py_float_raises_ValueError in E2. now subst. }
  now rewrite H.
Qed.

(** X5: in the [ps] backend a row with fewer than five columns, or whose
    pid, processor figure or memory figure is not a number, is dropped on its
    own: the listing is that of the other rows. No row ever ends the loop. *)
Theorem ps_bad_row_dropped_alone
    (stdout stdout' : string) (before after : list string) (line : string) :
  data_lines stdout = (before ++ line :: after)%list ->
  data_lines stdout' = (before ++ after)%list ->
  ps_rejected line ->
  _get_processes_ps (Ok stdout) = _get_processes_ps (Ok stdout') /\
  snd (for_each ps_step (data_lines stdout) []) = None.
Proof.
  intros Hlines Hlines' Hrej. split; [|apply ps_loop_completes].
  unfold _get_processes_ps. rewrite Hlines, Hlines', !for_each_app.
  destruct (for_each ps_step before []) as [s [x|]]; [reflexivity|].
  cbn [for_each]. now rewrite (ps_step_rejected s line Hrej).
Qed.

(** A row without a pid between the two rows of the sample: the listing is
    that of the sample. *)
Lemma ps_bad_row_example :
  _get_processes_ps
    (Ok (output_of
           [ "  PID COMM  %CPU %MEM STAT USER";
             "    1 init   0.5  0.1 Ss   root";
             ps_bad_row;
             "    2 busy  50.0  1.0 R    alice" ])) = ps_sample_records.
Proof.
  destruct (ps_bad_row_dropped_alone
              (output_of
                 [ "  PID COMM  %CPU %MEM STAT USER";
                   "    1 init   0.5  0.1 Ss   root";
                   ps_bad_row;
                   "    2 busy  50.0  1.0 R    alice" ])
              ps_sample
              ["    1 init   0.5  0.1 Ss   root"]
              ["    2 busy  50.0  1.0 R    alice"]
              ps_bad_row eq_refl eq_refl) as [H _].
  - right. left. reflexivity.
  - rewrite H. reflexivity.
Defined.

(** ** The [ps] backend: the columns of a row *)

Lemma split_ws_max_pad n pad rest :
  all_space pad = true ->
  Str.split_ws_max_aux n false (String.append pad rest) =
  Str.split_ws_max_aux n false rest.
Proof.
  induction pad as [|c pad IH]; simpl; intros H; [reflexivity|].
  apply andb_prop in H as [Hc Hp]. rewrite Hc. now apply IH.
Qed.

Lemma split_ws_max_word n w c rest :
  no_space w = true ->
  Str.is_space c = true ->
  Str.split_ws_max_aux n true (String.append w (String c rest)) =
  (w, snd (Str.split_ws_max_aux n false rest)).
Proof.
  intros Hw Hc. induction w as [|a w IH]; simpl.
  - now rewrite Hc.
  - simpl in Hw. apply andb_prop in Hw as [Ha Hw].
    apply negb_true_iff in Ha. rewrite Ha, (IH Hw). reflexivity.
Qed.

Lemma split_ws_max_token n t c rest :
  is_token t = true ->
  Str.is_space c = true ->
  Str.split_ws_max_aux (S n) false (String.append t (String c rest)) =
  (EmptyString, t :: snd (Str.split_ws_max_aux n false rest)).
Proof.
  intros Ht Hc. destruct t as [|a t]; [discriminate|].
  unfold is_token in Ht. simpl in Ht. apply andb_prop in Ht as [Ha Ht].
  apply negb_true_iff in Ha. simpl. rewrite Ha.
  now rewrite (split_ws_max_word n t c rest Ht Hc).
Qed.

Lemma split_ws_max_columns (cols : list (string * string)) (rest : string) :
  Forall padded_column cols ->
  Str.split_ws_max (List.length cols) (columns cols rest) =
  (map snd cols ++ Str.split_ws_max 0 rest)%list.
Proof.
  unfold Str.split_ws_max.
  induction 1 as [|[pad token] cols [Hpad Htoken] Hcols IH]; [reflexivity|].
  cbn [columns List.length map snd fst] in *.
  rewrite (split_ws_max_pad _ pad _ Hpad).
  rewrite (split_ws_max_token _ token " "%char _ Htoken eq_refl).
  cbn [snd]. now rewrite IH.
Qed.

Lemma split_ws_max_rest pad c user :
  all_space pad = true ->
  Str.is_space c = false ->
  Str.split_ws_max 0 (String.append pad (String c user)) = [String c user].
Proof.
  intros Hpad Hc. unfold Str.split_ws_max.
  rewrite (split_ws_max_pad _ pad _ Hpad). simpl. now rewrite Hc.
Qed.

(** X6: a row of [ps] with five columns that hold no white space, however
    they are padded, and a last column that starts after the fifth gives a
    record whose [username] is the whole rest of the row, the spaces inside it
    kept, when the pid and the two figures are numbers. *)
Theorem ps_row_record
    (processes : list dict)
    (pad1 pad2 pad3 pad4 pad5 pad6 : string)
    (pid_text name cpu_text memory_text status : string)
    (c : ascii) (user : string) (pid : Z) (cpu memory : pyfloat) :
  Forall padded_column
    [ (pad1, pid_text); (pad2, name); (pad3, cpu_text); (pad4, memory_text);
      (pad5, status) ] ->
  all_space pad6 = true ->
  Str.is_space c = false ->
  Parse.py_int pid_text = Ok pid ->
  Parse.py_float cpu_text = Ok cpu ->
  Parse.py_float memory_text = Ok memory ->
  ps_step processes
    (columns
       [ (pad1, pid_text); (pad2, name); (pad3, cpu_text); (pad4, memory_text);
         (pad5, status) ]
       (String.append pad6 (String c user))) =
  Ok (append processes (mkdict
    [ ("pid", VInt pid);
      ("name", VStr name);
      ("cpu_percent", VFloat cpu);
      ("memory_percent", VFloat memory);
      ("status", VStr status);
      ("username", VStr (String c user)) ])).
Proof.
  intros Hcols Hpad Hc Hpid Hcpu Hmem. unfold ps_step.
  change 5%nat with
    (List.length
       [ (pad1, pid_text); (pad2, name); (pad3, cpu_text); (pad4, memory_text);
         (pad5, status) ]) at 1.
  rewrite (split_ws_max_columns _ _ Hcols), (split_ws_max_rest _ _ _ Hpad Hc).
  cbn [map snd app List.length Nat.leb Nat.ltb Str.index nth_error bind].
  rewrite Hpid, Hcpu, Hmem. reflexivity.
Qed.

(** A row whose user name has two words. *)
Lemma ps_row_record_example :
  ps_step [] ps_wide_row = Ok [editor_record] /\
  editor_record !! "username" = Some (VStr "alice smith").
Proof.
  split; [|reflexivity].
  apply (ps_row_record [] "   " "" " " " " "" "  "
           "77" "editor" "12.5" "3.0" "S+" "a"%char "lice smith"
           77 (Fin (25 # 2)) (Fin 3)); try reflexivity.
  repeat constructor.
Defined.

(** ** The [/proc] backend: which entries give a record *)

Lemma proc_step_cases fs processes entry :
  proc_step fs processes entry = Ok processes \/
  exists pid d,
    proc_step fs processes entry = Ok (append processes d) /\
    Str.isdigit entry = true /\
    Parse.py_int entry = Ok pid /\
    exists_file (stat_file fs pid) = true /\
    d !! "pid" = Some (VInt pid).
Proof.
  destruct (proc_step_total fs processes entry) as [s' Hs'].
  unfold proc_step, try_except in *.
  destruct (Str.isdigit entry) eqn:Ed; cbn [negb] in *; [|now left].
  destruct (proc_entry fs processes entry) as [s|e] eqn:E.
  2: { destruct (is_proc_skip e); [now left | discriminate]. }
  unfold proc_entry in E.
  destruct (Parse.py_int entry) as [pid|] eqn:Ep; cbn [bind] in E; [|discriminate].
  destruct (exists_file (stat_file fs pid)) eqn:Ex;
    [|inversion E; subst; now left].
  repeat match type of E with
         | bind ?r _ = _ => destruct r; cbn [bind] in E; [|discriminate]
         end.
  inversion E; subst. right. exists pid. eexists.
  split; [reflexivity|]. repeat split; assumption.
Qed.

Lemma for_each_length {X R : Type} (body : list R -> X -> result (list R))
    (l : list X) :
  (forall s x s', body s x = Ok s' ->
     s' = s \/ exists r, s' = append s r) ->
  forall s,
    (List.length (fst (for_each body l s)) <= List.length s + List.length l)%nat.
Proof.
  intros Hstep. induction l as [|x l IH]; intros s; cbn [for_each List.length].
  - simpl. lia.
  - destruct (body s x) as [s'|e] eqn:E; [|simpl; lia].
    specialize (IH s'). destruct (Hstep _ _ _ E) as [->|[r ->]].
    + lia.
    + unfold append in *. rewrite length_app in IH. simpl in IH. lia.
Qed.

(** X7: the [/proc] backend never stops on an entry. Every record it
    returns comes from an entry of [/proc] whose name is a number and whose
    stat file is there, with that number as its [pid], and there are no more
    records than entries. *)
Theorem proc_records_from_entries (fs : procfs) (entries : list string) :
  listdir fs = Ok entries ->
  Forall (from_entry fs entries) (_get_processes_proc fs) /\
  (List.length (_get_processes_proc fs) <= List.length entries)%nat /\
  snd (for_each (proc_step fs) entries []) = None.
Proof.
  intros Hlist. unfold _get_processes_proc. rewrite Hlist.
  split; [|split].
  - apply for_each_invariant_in; [|constructor].
    intros s x s' Hin Hs Hstep.
    destruct (proc_step_cases fs s x) as [H|[pid [d [H Hd]]]];
      rewrite H in Hstep; inversion Hstep; subst; [exact Hs|].
    apply Forall_append; [exact Hs|].
    exists x, pid. tauto.
  - apply (for_each_length (proc_step fs) entries).
    intros s x s' Hstep.
    destruct (proc_step_cases fs s x) as [H|[pid [d [H _]]]];
      rewrite H in Hstep; inversion Hstep; subst; eauto.
  - clear Hlist. generalize (@nil dict).
    induction entries as [|x l IH]; intros s; [reflexivity|].
    cbn [for_each]. destruct (proc_step_total fs s x) as [s' ->]. apply IH.
Qed.

(** Of five entries, one is no number and two cannot be parsed: two
    records, those of the processes 2 and 123. *)
Lemma proc_records_from_entries_example :
  _get_processes_proc proc_mixed = [kthreadd_record; myproc_record] /\
  Forall (from_entry proc_mixed ["2"; "self"; "50"; "60"; "123"])
         [kthreadd_record; myproc_record].
Proof.
  assert (Hrun : _get_processes_proc proc_mixed = [kthreadd_record; myproc_record])
    by reflexivity.
  split; [exact Hrun|].
  destruct (proc_records_from_entries proc_mixed
              ["2"; "self"; "50"; "60"; "123"] eq_refl) as [H _].
  rewrite Hrun in H. exact H.
Defined.

Lemma read_vmrss_none lines memory_kb :
  Forall (fun l => Str.startswith "VmRSS:" l = false) lines ->
  read_vmrss lines memory_kb = Ok memory_kb.
Proof.
  induction 1 as [|l lines Hl _ IH]; simpl; [reflexivity|]. now rewrite Hl.
Qed.

(** X8: a process whose status file is missing, or has no line that starts
    with [VmRSS:] (a kernel thread), is listed with [memory_kb] 0. *)
Theorem proc_no_vmrss_gives_zero
    (fs : procfs) (processes : list dict) (entry : string) (pid : Z)
    (stat first name status : string) (rest : list string) :
  Str.isdigit entry = true ->
  Parse.py_int entry = Ok pid ->
  stat_file fs pid = Content stat ->
  Str.split_ws stat = first :: name :: status :: rest ->
  status_file fs pid = Missing \/
  (exists text,
     status_file fs pid = Content text /\
     Forall (fun l => Str.startswith "VmRSS:" l = false)
            (Str.split newline text)) ->
  proc_step fs processes entry =
  Ok (append processes (mkdict
    [ ("pid", VInt pid);
      ("name", VStr (Str.strip_chars "()" name));
      ("cpu_percent", VFloat F0);
      ("memory_percent", VFloat F0);
      ("memory_kb", VInt 0);
      ("status", VStr status);
      ("username", VStr "unknown") ])).
Proof.
  intros Hd Hpid Hstat Hwords Hstatus.
  unfold proc_step. rewrite Hd. cbn [negb].
  unfold proc_entry. rewrite Hpid. cbn [bind].
  rewrite Hstat. cbn [exists_file read_file bind]. rewrite Hwords.
  cbn [Str.index nth_error bind].
  destruct Hstatus as [->|[text [-> Hnone]]]; cbn [exists_file read_file bind].
  - reflexivity.
  - rewrite (read_vmrss_none _ 0 Hnone). reflexivity.
Qed.

(** The kernel thread 2 of the mixed [/proc]. *)
Lemma proc_no_vmrss_example :
  proc_step proc_mixed [] "2" = Ok [kthreadd_record].
Proof.
  apply (proc_no_vmrss_gives_zero proc_mixed [] "2" 2
           "2 (kthreadd) S 0 0 0" "2" "(kthreadd)" "S" ["0"; "0"; "0"]
           eq_refl eq_refl eq_refl eq_refl).
  right. eexists. split; [reflexivity|]. repeat constructor.
Defined.

Lemma read_vmrss_bad text :
  bad_vmrss text ->
  exists e, read_vmrss (Str.split newline text) 0 = Raise e /\
            is_proc_skip e = true.
Proof.
  intros (before & line & after & -> & Hbefore & Hline & Hbad).
  induction Hbefore as [|l before Hl _ IH]; simpl.
  - rewrite Hline. destruct Hbad as [H|[word [H1 H2]]].
    + rewrite H. simpl. eauto.
    + rewrite H1. simpl. rewrite H2. eauto.
  - now rewrite Hl.
Qed.

(** X9: a process whose stat file cannot be read or has fewer than three
    words, or whose status file cannot be read or has a [VmRSS:] line without
    an integer, is skipped on its own: the loop goes on with the records it
    had. *)
Theorem proc_unparsable_process_skipped
    (fs : procfs) (processes : list dict) (entry : string) (pid : Z) :
  Parse.py_int entry = Ok pid ->
  proc_unparsable fs pid ->
  proc_step fs processes entry = Ok processes.
Proof.
  intros Hpid Hbad. unfold proc_step, try_except.
  destruct (negb (Str.isdigit entry)); [reflexivity|].
  unfold proc_entry. rewrite Hpid. cbn [bind].
  destruct Hbad as [Hs|[[text [Hs Hshort]]|[[Hs Hst]|[Hs [text [Hst Hrss]]]]]].
  - rewrite Hs. reflexivity.
  - rewrite Hs. cbn [exists_file read_file bind].
    destruct (Str.split_ws text) as [|a [|b [|c l]]]; simpl in *;
      try reflexivity; lia.
  - destruct (stat_file fs pid) as [| |text]; [contradiction|reflexivity|].
    cbn [exists_file read_file bind].
    destruct (Str.index _ 1) as [?|e] eqn:E1; cbn [bind];
      [|apply index_raises_IndexError in E1; now subst].
    destruct (Str.index _ 2) as [?|e] eqn:E2; cbn [bind];
      [|apply index_raises_IndexError in E2; now subst].
    rewrite Hst. reflexivity.
  - destruct (stat_file fs pid) as [| |stat]; [contradiction|reflexivity|].
    cbn [exists_file read_file bind].
    destruct (Str.index _ 1) as [?|e] eqn:E1; cbn [bind];
      [|apply index_raises_IndexError in E1; now subst].
    destruct (Str.index _ 2) as [?|e] eqn:E2; cbn [bind];
      [|apply index_raises_IndexError in E2; now subst].
    rewrite Hst. cbn [exists_file read_file bind].
    destruct (read_vmrss_bad text Hrss) as [e [-> He]]. cbn [bind].
    now rewrite He.
Qed.

(** The processes 50 and 60 of the mixed [/proc]. *)
Lemma proc_unparsable_example :
  proc_step proc_mixed [kthreadd_record] "50" = Ok [kthreadd_record] /\
  proc_step proc_mixed [kthreadd_record] "60" = Ok [kthreadd_record].
Proof.
  split.
  - apply (proc_unparsable_process_skipped proc_mixed _ "50" 50 eq_refl).
    left. reflexivity.
  - apply (proc_unparsable_process_skipped proc_mixed _ "60" 60 eq_refl).
    right; right; right. split; [discriminate|].
    eexists. split; [reflexivity|].
    exists ["Name:   cut"], "VmRSS:", [""].
    split; [reflexivity|]. split; [repeat constructor|].
    split; [reflexivity|]. left. reflexivity.
Defined.

(** ** The Linux fallback: lines of [/proc/meminfo] *)

Lemma meminfo_line_raises info line e :
  meminfo_line info line = Raise e -> is_OSError e = false.
Proof.
  unfold meminfo_line.
  destruct (Str.startswith "MemTotal:" line);
    [|destruct (Str.startswith "MemAvailable:" line); [|discriminate]].
  all: destruct (Str.index _ 1) as [word|e1] eqn:E1; cbn [bind];
    [|intros [= <-]; apply index_raises_IndexError in E1; now subst];
    destruct (Parse.py_int word) as [kb|e2] eqn:E2; cbn [bind]; [discriminate|];
    intros [= <-]; apply py_int_raises_ValueError in E2; now subst.
Qed.

Lemma for_each_raised {X S : Type} (body : S -> X -> result S) (l : list X) :
  forall s s' e,
    for_each body l s = (s', Some e) ->
    exists s0 x, In x l /\ body s0 x = Raise e.
Proof.
  induction l as [|x l IH]; intros s s' e; cbn [for_each]; [discriminate|].
  destruct (body s x) as [s1|e1] eqn:E.
  - intros H. destruct (IH _ _ _ H) as [s0 [y [Hy Hb]]].
    exists s0, y. split; [now right | exact Hb].
  - intros [= <- <-]. exists s, x. split; [now left | exact E].
Qed.

Lemma meminfo_other_line info line :
  Str.startswith "MemTotal:" line = false ->
  forall info',
    meminfo_line info line = Ok info' ->
    info' !! "memory_total_gb" = info !! "memory_total_gb".
Proof.
  intros Hline info'. unfold meminfo_line. rewrite Hline.
  destruct (Str.startswith "MemAvailable:" line); [|now intros [= <-]].
  destruct (Str.index _ 1); cbn [bind]; [|discriminate].
  destruct (Parse.py_int _); cbn [bind]; [|discriminate].
  intros [= <-]. now rewrite lookup_insert_ne by discriminate.
Qed.

Lemma read_loadavg_keeps f (info : dict) k :
  k <> "load_average" ->
  fst (read_loadavg f info) !! k = info !! k.
Proof.
  intros Hk. unfold read_loadavg.
  destruct (read_file f); [|reflexivity].
  destruct (map_result Parse.py_float _); [|reflexivity].
  cbn [fst]. now rewrite lookup_insert_ne by congruence.
Qed.

(** X10: when [/proc/meminfo] has several lines that start with
    [MemTotal:], the snapshot holds the size of the last of them: every such
    line overwrites [memory_total_gb]. *)
Theorem meminfo_last_total_wins
    (fb : fallback_system) (text : string)
    (before after : list string) (line word : string) (kb : Z) (info : dict) :
  meminfo fb = Content text ->
  Str.split newline text = (before ++ line :: after)%list ->
  Str.startswith "MemTotal:" line = true ->
  Str.index (Str.split_ws line) 1 = Ok word ->
  Parse.py_int word = Ok kb ->
  Forall (fun l => Str.startswith "MemTotal:" l = false) after ->
  _get_linux_system_info fb = Ok info ->
  info !! "memory_total_gb" =
  Some (VFloat (py_round (int_truediv kb mib) 2)).
Proof.
  intros Hfile Hlines Hline Hword Hkb Hafter Hrun.
  unfold _get_linux_system_info in Hrun.
  destruct (try_pass is_OSError (read_meminfo (meminfo fb) ∅))
    as [info1|] eqn:E1; cbn [bind] in Hrun; [|discriminate].
  destruct (try_pass is_OSError (read_loadavg (loadavg fb) info1))
    as [info2|] eqn:E2; cbn [bind] in Hrun; [|discriminate].
  injection Hrun as <-.
  apply try_pass_fst in E2. subst info2.
  rewrite read_loadavg_keeps by discriminate.
  unfold read_meminfo in E1. rewrite Hfile in E1. cbn [read_file] in E1.
  rewrite Hlines, for_each_app in E1.
  destruct (for_each meminfo_line before ∅) as [s0 [e|]] eqn:Eb.
  { exfalso. destruct (for_each_raised _ _ _ _ _ Eb) as [s1 [x [_ Hx]]].
    apply meminfo_line_raises in Hx. simpl in E1. now rewrite Hx in E1. }
  cbn [for_each] in E1.
  assert (Hstep : meminfo_line s0 line =
                  Ok (<["memory_total_gb" :=
                          VFloat (py_round (int_truediv kb mib) 2)]> s0)).
  { unfold meminfo_line. rewrite Hline, Hword. cbn [bind]. now rewrite Hkb. }
  rewrite Hstep in E1.
  apply try_pass_fst in E1. subst info1.
  transitivity ((<["memory_total_gb" :=
                     VFloat (py_round (int_truediv kb mib) 2)]> s0)
                  !! "memory_total_gb"); [|apply lookup_insert_eq].
  apply (for_each_invariant_in
           (fun s : dict =>
              s !! "memory_total_gb" =
              (<["memory_total_gb" :=
                   VFloat (py_round (int_truediv kb mib) 2)]> s0)
                !! "memory_total_gb")); [|reflexivity].
  intros s x s' Hin Hs Hx. rewrite <- Hs.
  apply meminfo_other_line with x; [|exact Hx].
  rewrite List.Forall_forall in Hafter. now apply Hafter.
Qed.

(** Two [MemTotal:] lines, of 1 GiB and of 2 GiB: the snapshot says 2. *)
Lemma meminfo_last_total_example :
  exists info,
    _get_linux_system_info doubled_fallback = Ok info /\
    info !! "memory_total_gb" = Some (VFloat (Fin 2)) /\
    info !! "memory_available_gb" = Some (VFloat (Fin (1 # 2))) /\
    info !! "load_average" =
      Some (VFloats [Fin (13 # 25); Fin (29 # 50); Fin (59 # 100)]).
Proof.
  assert (Hrun : exists info,
             _get_linux_system_info doubled_fallback = Ok info /\
             info !! "memory_available_gb" = Some (VFloat (Fin (1 # 2))) /\
             info !! "load_average" =
               Some (VFloats [Fin (13 # 25); Fin (29 # 50); Fin (59 # 100)]))
    by (eexists; repeat split; reflexivity).
  destruct Hrun as [info [Hrun [Ha Hl]]].
  exists info. split; [exact Hrun|]. split; [|now split].
  apply (meminfo_last_total_wins doubled_fallback _
           [ "MemTotal:        1048576 kB"; "MemAvailable:     524288 kB" ]
           [ "Cached:           100000 kB" ]
           "MemTotal:        2097152 kB" "2097152" 2097152 info
           eq_refl eq_refl eq_refl eq_refl eq_refl);
    [repeat constructor | exact Hrun].
Defined.

Lemma meminfo_other_lines (lines : list string) (info : dict) :
  Forall (fun l => meminfo_key_line l = false) lines ->
  for_each meminfo_line lines info = (info, None).
Proof.
  induction 1 as [|l lines Hl _ IH]; [reflexivity|].
  cbn [for_each]. unfold meminfo_line at 1.
  unfold meminfo_key_line in Hl. apply orb_false_elim in Hl as [-> ->].
  exact IH.
Qed.

(** X11: on Linux without psutil, a [MemTotal:] or [MemAvailable:] line of
    [/proc/meminfo] whose second word is not an integer makes
    [get_detailed_system_status] raise [ValueError]: only [OSError] is caught
    around the parsing. The lines before it are taken not to be of those
    two. *)
Theorem linux_bad_meminfo_line_raises
    (self : SystemMonitor) (h : host) (text : string)
    (before after : list string) (line word : string) :
  PSUTIL_AVAILABLE h = false ->
  self_system self = "linux" ->
  meminfo (fallback h) = Content text ->
  Str.split newline text = (before ++ line :: after)%list ->
  Forall (fun l => meminfo_key_line l = false) before ->
  meminfo_key_line line = true ->
  Str.index (Str.split_ws line) 1 = Ok word ->
  Parse.py_int word = Raise ValueError ->
  get_detailed_system_status self h = Raise ValueError.
Proof.
  intros Hps Hsys Hfile Hlines Hbefore Hline Hword Hint.
  unfold get_detailed_system_status. rewrite Hps.
  unfold _get_system_info_fallback. rewrite Hsys.
  replace (String.eqb "linux" "linux") with true by reflexivity.
  unfold _get_linux_system_info, read_meminfo.
  rewrite Hfile. cbn [read_file]. rewrite Hlines, for_each_app.
  rewrite (meminfo_other_lines before ∅ Hbefore). cbn [for_each].
  assert (Hstep : meminfo_line ∅ line = Raise ValueError).
  { unfold meminfo_line, meminfo_key_line in *.
    destruct (Str.startswith "MemTotal:" line).
    - rewrite Hword. cbn [bind]. now rewrite Hint.
    - cbn [orb] in Hline. rewrite Hline, Hword. cbn [bind]. now rewrite Hint. }
  rewrite Hstep. reflexivity.
Qed.

(** The total of the garbled [/proc/meminfo] is the word [unknown]. *)
Lemma linux_bad_meminfo_line_example :
  get_detailed_system_status
    (__init__ (with_fallback (bare_host "Linux") garbled_fallback))
    (with_fallback (bare_host "Linux") garbled_fallback) = Raise ValueError.
Proof.
  apply (linux_bad_meminfo_line_raises _ _
           (output_of ["MemTotal:       unknown kB"; ""])
           [] [""] "MemTotal:       unknown kB" "unknown");
    try reflexivity.
  constructor.
Defined.

(** ** The Windows fallback: what [wmic] writes *)








(** ** The psutil snapshot: the histogram of the states *)

Lemma count_status_loop (statuses : list string) : forall counts status,
  fst (for_each count_status statuses counts) !! status =
  if (occurrences status statuses =? 0) then counts !! status
  else Some (default 0 (counts !! status) + occurrences status statuses).
Proof.
  unfold occurrences.
  induction statuses as [|s l IH]; intros counts status; [reflexivity|].
  cbn [for_each count_status]. rewrite IH. cbn [count_occ].
  destruct (string_dec s status) as [->|Hne].
  - rewrite lookup_insert_eq. cbn [default].
    destruct (Z.of_nat (count_occ string_dec l status) =? 0) eqn:E.
    + apply Z.eqb_eq in E.
      replace (Z.of_nat (S (count_occ string_dec l status)) =? 0) with false
        by (symmetry; apply Z.eqb_neq; lia).
      unfold id. apply (f_equal Some). lia.
    + replace (Z.of_nat (S (count_occ string_dec l status)) =? 0) with false
        by (symmetry; apply Z.eqb_neq; lia).
      unfold id. apply (f_equal Some). lia.
  - now rewrite lookup_insert_ne by exact Hne.
Qed.

(** X13: in the snapshot of the psutil collector [process_status_counts]
    maps every state that some process has to the number of processes in that
    state and holds no other state, and [process_count] is the number of
    pids. *)
Theorem status_counts_are_occurrences (h : host) (raw : psutil_system) :
  psutil_snapshot h = Ok raw ->
  exists counts,
    _get_system_info_psutil h !! "process_status_counts" = Some (VCounts counts) /\
    _get_system_info_psutil h !! "process_count" =
      Some (VInt (Z.of_nat (List.length (pids raw)))) /\
    forall status,
      counts !! status =
      if In_dec string_dec status (statuses raw)
      then Some (occurrences status (statuses raw))
      else None.
Proof.
  intros Hraw. unfold _get_system_info_psutil. rewrite Hraw.
  eexists. split; [dict_lookup; reflexivity|].
  split; [dict_lookup; reflexivity|].
  intros status. rewrite count_status_loop, lookup_empty. cbn [default].
  unfold occurrences.
  destruct (In_dec string_dec status (statuses raw)) as [Hin|Hout].
  - apply (count_occ_In string_dec) in Hin.
    replace (Z.of_nat (count_occ string_dec (statuses raw) status) =? 0)
      with false by (symmetry; apply Z.eqb_neq; lia).
    reflexivity.
  - apply (count_occ_not_In string_dec) in Hout. now rewrite Hout.
Qed.

(** Two sleeping processes and one running. *)
Lemma status_counts_example :
  exists counts,
    _get_system_info_psutil machine_before !! "process_status_counts" =
      Some (VCounts counts) /\
    counts !! "sleeping" = Some 2 /\
    counts !! "running" = Some 1 /\
    counts !! "zombie" = None.
Proof.
  destruct (status_counts_are_occurrences machine_before psutil_sample eq_refl)
    as [counts [Hc [_ Hall]]].
  exists counts. split; [exact Hc|].
  split; [|split].
  - rewrite (Hall "sleeping"). reflexivity.
  - rewrite (Hall "running"). reflexivity.
  - rewrite (Hall "zombie"). reflexivity.
Defined.

(** ** Rounding to gigabytes *)






(** ** The pager: what the pages hold *)






(** ** The pager: leaving, going back and forth, pages of no size *)

Lemma navigate_on_q (total page_size page : Z) (typed : string) :
  Str.lower typed = "q" -> navigate total page_size page typed = Ok None.
Proof. unfold navigate. intros ->. reflexivity. Qed.

(** X16: the loop of the pager ends on the choice [q], in either case, and
    on no other: whatever the page and the sizes, [navigate] gives the [break]
    exactly when the lowered choice is [q]. *)
Theorem navigate_quits_only_on_q (total page_size page : Z) (typed : string) :
  navigate total page_size page typed = Ok None <-> Str.lower typed = "q".
Proof.
  unfold navigate. split.
  - destruct (String.eqb (Str.lower typed) "n" && _); [discriminate|].
    destruct (String.eqb (Str.lower typed) "p" && _); [discriminate|].
    destruct (String.eqb (Str.lower typed) "f"); [discriminate|].
    destruct (String.eqb (Str.lower typed) "l").
    { destruct (floordiv _ _); discriminate. }
    destruct (String.eqb (Str.lower typed) "q") eqn:E; [|discriminate].
    intros _. now apply String.eqb_eq.
  - intros ->. reflexivity.
Qed.

(** X17: what is typed after [q] is not read: a session given more choices
    after a [q] shows the pages, and ends on the page, of the session given
    the choices before that [q]. *)
Theorem paging_loop_stops_at_q
    (processes : list dict) (page_size : Z) (before after : list string)
    (quit : string) :
  Str.lower quit = "q" ->
  forall page,
    paging_loop processes page_size page (before ++ quit :: after)%list =
    paging_loop processes page_size page before.
Proof.
  intros Hq. induction before as [|choice before IH]; intros page.
  - cbn [app paging_loop].
    destruct (render processes page_size page) as [view|e]; [|reflexivity].
    cbn [bind].
    replace (navigate (Z.of_nat (List.length processes)) page_size page quit)
      with (Ok (A := option Z) None)
      by (symmetry; now apply navigate_on_q).
    reflexivity.
  - cbn [app paging_loop].
    destruct (render processes page_size page) as [view|e]; [|reflexivity].
    cbn [bind].
    destruct (navigate _ page_size page choice) as [[next|]|e];
      cbn [bind]; try reflexivity.
    now rewrite IH.
Qed.

(** A session of seven records in pages of three: [n], [Q], and then two
    choices that are never read. *)
Lemma paging_loop_stops_example :
  paging_loop seven_records 3 0 ["n"; "Q"; "l"; "p"] =
  paging_loop seven_records 3 0 ["n"] /\
  exists first second,
    paging_loop seven_records 3 0 ["n"; "Q"; "l"; "p"] = Ok ([first; second], 1).
Proof.
  split.
  - apply (paging_loop_stops_at_q seven_records 3 ["n"] ["l"; "p"] "Q" eq_refl).
  - do 2 eexists. reflexivity.
Defined.

(** X18: inside the pages [n] and [p] undo each other: from a page that is
    not the last, [n] and then [p] comes back to it, and from a valid page
    that is not the first, [p] and then [n] comes back to it. *)
Theorem next_previous_inverse (total page_size page : Z) :
  0 < page_size ->
  0 <= page ->
  (page * page_size + page_size < total ->
   navigate total page_size page "n" = Ok (Some (page + 1)) /\
   navigate total page_size (page + 1) "p" = Ok (Some page)) /\
  (0 < page ->
   page <= (total - 1) / page_size ->
   navigate total page_size page "p" = Ok (Some (page - 1)) /\
   navigate total page_size (page - 1) "n" = Ok (Some page)).
Proof.
  intros Hps Hpage. split.
  - intros Hroom. unfold navigate. cbn [Str.lower Str.lower_char].
    replace (String.eqb (Str.lower "n") "n") with true by reflexivity.
    replace (String.eqb (Str.lower "p") "n") with false by reflexivity.
    replace (String.eqb (Str.lower "p") "p") with true by reflexivity.
    replace (page * page_size + page_size <? total) with true
      by (symmetry; apply Z.ltb_lt; lia).
    replace (page + 1 >? 0) with true by (symmetry; apply Z.gtb_lt; lia).
    cbn [andb]. split; [reflexivity|]. f_equal. f_equal. lia.
  - intros Hpos Hvalid. unfold navigate.
    replace (String.eqb (Str.lower "n") "n") with true by reflexivity.
    replace (String.eqb (Str.lower "p") "n") with false by reflexivity.
    replace (String.eqb (Str.lower "p") "p") with true by reflexivity.
    replace (page >? 0) with true by (symmetry; apply Z.gtb_lt; lia).
    assert (page * page_size <= total - 1).
    { pose proof (Z.mul_div_le (total - 1) page_size Hps). nia. }
    replace ((page - 1) * page_size + page_size <? total) with true
      by (symmetry; apply Z.ltb_lt; lia).
    cbn [andb]. split; [reflexivity|]. f_equal. f_equal. lia.
Qed.

(** Page 1 of three pages. *)
Lemma next_previous_example :
  navigate 7 3 1 "n" = Ok (Some 2) /\ navigate 7 3 2 "p" = Ok (Some 1) /\
  navigate 7 3 1 "p" = Ok (Some 0) /\ navigate 7 3 0 "n" = Ok (Some 1).
Proof.
  destruct (next_previous_inverse 7 3 1 ltac:(lia) ltac:(lia)) as [Hn Hp].
  destruct (Hn ltac:(lia)) as [H1 H2].
  destruct (Hp ltac:(lia) ltac:(vm_compute; discriminate)) as [H3 H4].
  repeat split; assumption.
Defined.

(** X19: with a page size of 0 and at least one process,
    [display_process_status] raises [ZeroDivisionError] before it shows a
    page: the label of the first page divides by the page size. *)
Theorem page_size_zero_raises
    (self : SystemMonitor) (h : host) (processes : list dict)
    (typed : list string) :
  get_process_status self h = Ok processes ->
  processes <> [] ->
  display_process_status self h 0 typed = Raise ZeroDivisionError.
Proof.
  intros Hrun Hne. unfold display_process_status. rewrite Hrun. cbn [bind].
  destruct processes as [|p rest]; [contradiction|].
  destruct typed; reflexivity.
Qed.

(** The two processes of the Windows host. *)
Lemma page_size_zero_example :
  display_process_status (__init__ windows_host) windows_host 0 ["n"; "q"] =
  Raise ZeroDivisionError.
Proof.
  apply (page_size_zero_raises _ _ [notepad_record; nameless_record]);
    [reflexivity | discriminate].
Defined.

(** ** The display of the snapshot *)

Lemma is_empty_dict_false (info : dict) k v :
  info !! k = Some v -> is_empty_dict info = false.
Proof.
  intros Hk. unfold is_empty_dict.
  destruct (map_to_list info) eqn:E; [|reflexivity].
  apply map_to_list_empty_iff in E. subst. now rewrite lookup_empty in Hk.
Qed.

Lemma is_empty_dict_empty : is_empty_dict ∅ = true.
Proof. unfold is_empty_dict. now rewrite map_to_list_empty. Qed.

(** The fields of a fallback snapshot and the shapes of their values. *)
Lemma fallback_info_lookup (self : SystemMonitor) (h : host) (info : dict) :
  _get_system_info_fallback self h = Ok info ->
  info !! "system" = Some (VStr (platform_system h)) /\
  forall k v,
    info !! k = Some v ->
    base_field k \/
    (k = "memory_total_gb" /\ exists f, v = VFloat f) \/
    (k = "memory_available_gb" /\ exists f, v = VFloat f) \/
    (k = "load_average" /\ exists loads, v = VFloats loads) \/
    (k = "vm_stat_available" /\ v = VBool true).
Proof.
  unfold _get_system_info_fallback. set (base := mkdict _).
  assert (Hsys : base !! "system" = Some (VStr (platform_system h)))
    by (unfold base; dict_lookup; reflexivity).
  assert (Hupd : forall other : dict,
             (forall k v, other !! k = Some v ->
                (k = "memory_total_gb" /\ exists f, v = VFloat f) \/
                (k = "memory_available_gb" /\ exists f, v = VFloat f) \/
                (k = "load_average" /\ exists loads, v = VFloats loads) \/
                (k = "vm_stat_available" /\ v = VBool true)) ->
             update base other !! "system" = Some (VStr (platform_system h)) /\
             forall k v,
               update base other !! k = Some v ->
               base_field k \/
               (k = "memory_total_gb" /\ exists f, v = VFloat f) \/
               (k = "memory_available_gb" /\ exists f, v = VFloat f) \/
               (k = "load_average" /\ exists loads, v = VFloats loads) \/
               (k = "vm_stat_available" /\ v = VBool true)).
  { intros other Hother. split.
    - rewrite update_lookup_base; [exact Hsys|].
      destruct (other !! "system") as [v|] eqn:E; [|reflexivity].
      apply Hother in E.
      destruct E as [[E _]|[[E _]|[[E _]|[E _]]]]; discriminate.
    - intros k v Hk. apply update_lookup_Some in Hk as [Hk|Hk].
      + right. now apply Hother.
      + left. now apply base_info_fields in Hk. }
  destruct (String.eqb (self_system self) "linux");
    [|destruct (String.eqb (self_system self) "darwin");
      [|destruct (String.eqb (self_system self) "windows")]].
  - destruct (_get_linux_system_info (fallback h)) as [other|] eqn:E;
      cbn [bind]; [|discriminate].
    intros [= <-]. apply Hupd. intros k v Hk.
    apply (linux_info_supplied _ _ E) in Hk.
    destruct Hk as [[-> Hv]|[[-> Hv]|[-> Hv]]].
    + left. split; [reflexivity|].
      destruct Hv as (? & ? & ? & ? & _ & _ & _ & _ & _ & ->). eauto.
    + right; left. split; [reflexivity|].
      destruct Hv as (? & ? & ? & ? & _ & _ & _ & _ & _ & ->). eauto.
    + right; right; left. split; [reflexivity|].
      destruct Hv as (? & ? & _ & _ & ->). eauto.
  - destruct (_get_macos_system_info (fallback h)) as [other|] eqn:E;
      cbn [bind]; [|discriminate].
    intros [= <-]. apply Hupd. intros k v Hk.
    apply (macos_info_supplied _ _ E) in Hk. destruct Hk as (-> & _ & ->).
    right; right; right. now split.
  - destruct (_get_windows_system_info (fallback h)) as [other|] eqn:E;
      cbn [bind]; [|discriminate].
    intros [= <-]. apply Hupd. intros k v Hk.
    apply (windows_info_supplied _ _ E) in Hk. destruct Hk as (-> & Hv).
    left. split; [reflexivity|].
    destruct Hv as (? & ? & ? & ? & _ & _ & _ & _ & _ & ->). eauto.
  - intros [= <-]. split; [exact Hsys|].
    intros k v Hk. left. now apply base_info_fields in Hk.
Qed.

Lemma fallback_info_absent (self : SystemMonitor) (h : host) (info : dict) k :
  _get_system_info_fallback self h = Ok info ->
  k = "swap_total_gb" \/ k = "process_count" \/ k = "process_status_counts" \/
  k = "boot_time" \/ k = "memory_used_gb" \/ k = "memory_percent" \/
  k = "cpu_percent" \/ k = "cpu_cores_physical" ->
  info !! k = None.
Proof.
  intros Hrun Hk. destruct (fallback_info_lookup self h info Hrun) as [_ Hall].
  destruct (info !! k) as [v|] eqn:E; [|reflexivity].
  exfalso. apply Hall in E. unfold base_field in E.
  repeat (destruct Hk as [->|Hk]);
    try subst k;
    repeat (destruct E as [E|E]);
    try discriminate E; try (destruct E as [E _]; discriminate E).
Qed.

Lemma fallback_info_shape (self : SystemMonitor) (h : host) (info : dict) :
  _get_system_info_fallback self h = Ok info -> shape_ok info = true.
Proof.
  intros Hrun. unfold shape_ok.
  rewrite (fallback_info_absent self h info "process_status_counts" Hrun) by tauto.
  destruct (fallback_info_lookup self h info Hrun) as [_ Hall].
  destruct (info !! "load_average") as [v|] eqn:E; [|reflexivity].
  apply Hall in E. unfold base_field in E.
  destruct E as [E|[[E _]|[[E _]|[[_ [loads ->]]|[E _]]]]];
    try discriminate E; [|reflexivity].
  destruct E as [E|[E|[E|E]]]; discriminate E.
Qed.

(** What the psutil collector returns when psutil answers. *)
Lemma psutil_info_fields (h : host) (raw : psutil_system) :
  psutil_snapshot h = Ok raw ->
  let info := _get_system_info_psutil h in
  info !! "swap_total_gb" =
    Some (VFloat (py_round (int_truediv (swap_total raw) gib) 2)) /\
  info !! "swap_used_gb" =
    Some (VFloat (py_round (int_truediv (swap_used raw) gib) 2)) /\
  info !! "swap_percent" = Some (VFloat (fin (swap_percent raw))) /\
  info !! "process_count" = Some (VInt (Z.of_nat (List.length (pids raw)))) /\
  info !! "process_status_counts" =
    Some (VCounts (fst (for_each count_status (statuses raw) ∅))) /\
  info !! "load_average" = None.
Proof.
  intros Hraw. unfold _get_system_info_psutil. rewrite Hraw.
  repeat split; dict_lookup; reflexivity.
Qed.

Lemma swap_section_psutil (h : host) (raw : psutil_system) (out : list line) :
  psutil_snapshot h = Ok raw ->
  exists out', swap_section (_get_system_info_psutil h) out = (out', None).
Proof.
  intros Hraw.
  destruct (psutil_info_fields h raw Hraw) as (Ht & Hu & Hp & _).
  unfold swap_section, getitem. rewrite Ht, Hu, Hp. cbn [value_gt as_number bind].
  destruct (float_gtb _ _); eauto.
Qed.

(** The display ends with the exception of the collector, or with none. *)
Lemma display_outcome (self : SystemMonitor) (h : host) :
  exists lines,
    display_detailed_system_status self h =
    Some (lines,
          match get_detailed_system_status self h with
          | Ok _ => None
          | Raise e => Some e
          end).
Proof.
  unfold display_detailed_system_status.
  destruct (get_detailed_system_status self h) as [info|e] eqn:Hrun; [|eauto].
  destruct (is_empty_dict info) eqn:Hempty; [eauto|].
  unfold get_detailed_system_status in Hrun.
  destruct (PSUTIL_AVAILABLE h).
  - injection Hrun as <-.
    destruct (psutil_snapshot h) as [raw|e] eqn:Hraw.
    + destruct (psutil_info_fields h raw Hraw) as (_ & _ & _ & _ & Hc & Hl).
      unfold shape_ok. rewrite Hc, Hl. cbn [andb].
      unfold display_info.
      match goal with
      | |- context [swap_section ?i ?o] =>
          destruct (swap_section_psutil h raw o Hraw) as [out' ->]
      end.
      eauto.
    + unfold _get_system_info_psutil in Hempty. rewrite Hraw in Hempty.
      now rewrite is_empty_dict_empty in Hempty.
  - rewrite (fallback_info_shape self h info Hrun).
    unfold display_info, swap_section.
    rewrite (fallback_info_absent self h info "swap_total_gb" Hrun) by tauto.
    eauto.
Qed.



(** ** The display: the swap section *)

Lemma round_half_even_pos (y : Q) : 0 < round_half_even y <-> (1 # 2 < y)%Q.
Proof.
  unfold round_half_even.
  pose proof (Qfloor_le y) as Hlo. pose proof (Qlt_floor y) as Hhi.
  rewrite inject_Z_plus in Hhi. change (inject_Z 1) with 1%Q in Hhi.
  change (Qfloor y # 1) with (inject_Z (Qfloor y)).
  set (fl := Qfloor y) in *.
  assert (Hcases : (1 <= inject_Z fl)%Q /\ 1 <= fl \/
                   (inject_Z fl == 0)%Q /\ fl = 0 \/
                   (inject_Z fl <= -1)%Q /\ fl <= -1).
  { destruct (Z.lt_trichotomy fl 0) as [H|[H|H]].
    - right; right. split; [|lia].
      change (-1)%Q with (inject_Z (-1)). rewrite <- Zle_Qle. lia.
    - right; left. split; [|exact H]. now rewrite H.
    - left. split; [|lia].
      change 1%Q with (inject_Z 1). rewrite <- Zle_Qle. lia. }
  destruct (y - inject_Z fl ?= 1 # 2)%Q eqn:E;
    [ apply Qeq_alt in E | apply Qlt_alt in E | apply Qgt_alt in E ].
  - destruct Hcases as [[Hq Hz]|[[Hq Hz]|[Hq Hz]]].
    + split; [intros _; lra|]. intros _. destruct (Z.even fl); lia.
    + rewrite Hz. cbn [Z.even]. split; [lia|]. intros H. lra.
    + split; [|intros H; lra]. destruct (Z.even fl); lia.
  - destruct Hcases as [[Hq Hz]|[[Hq Hz]|[Hq Hz]]].
    + split; [intros _; lra | lia].
    + split; [lia | intros H; lra].
    + split; [lia | intros H; lra].
  - destruct Hcases as [[Hq Hz]|[[Hq Hz]|[Hq Hz]]].
    + split; [intros _; lra | lia].
    + split; [intros _; lra | lia].
    + split; [lia | intros H; lra].
Qed.

(** A size in GB rounded to two decimals is above 0 from 0.005 GB on. *)
Lemma rounded_size_positive (n : Z) :
  float_gtb (py_round (int_truediv n gib) 2) (Fin 0) =
  (Zpos gib <? 200 * n).
Proof.
  apply eq_true_iff_eq. unfold float_gtb, int_truediv, fin. cbn [py_round].
  unfold fin. rewrite float_ltb_fin, Qred_correct, Z.ltb_lt.
  change (Z.to_pos (10 ^ Z.of_nat 2)) with 100%positive.
  change (10 ^ Z.of_nat 2 # 1)%Q with (100 # 1)%Q.
  set (r := round_half_even (Qred (n # gib) * (100 # 1))).
  transitivity (0 < r).
  - unfold Qlt. simpl. lia.
  - unfold r. rewrite round_half_even_pos, Qred_correct.
    unfold Qlt, Qmult. simpl. lia.
Qed.

Lemma existsb_append {X : Type} (p : X -> bool) (l : list X) (x : X) :
  existsb p (append l x) = existsb p l || p x.
Proof. unfold append. rewrite existsb_app. simpl. now rewrite orb_false_r. Qed.

Lemma print_field_no_swap info k label suffix out :
  existsb is_swap_heading (print_field info k label suffix out) =
  existsb is_swap_heading out.
Proof.
  unfold print_field. destruct (info !! k); [|reflexivity].
  rewrite existsb_append. apply orb_false_r.
Qed.

Lemma process_section_no_swap info out :
  existsb is_swap_heading (process_section info out) =
  existsb is_swap_heading out.
Proof.
  unfold process_section. destruct (info !! "process_count"); [|reflexivity].
  assert (Hstatus : forall counts,
             existsb is_swap_heading (status_lines counts) = false).
  { intros counts. unfold status_lines.
    induction (sorted_items (map_to_list counts)); [reflexivity | exact IHl]. }
  destruct (info !! "process_status_counts") as [[]|];
    rewrite ?existsb_app, ?Hstatus, !existsb_append; cbn [is_swap_heading];
    rewrite ?orb_false_r; reflexivity.
Qed.

Lemma load_section_no_swap info out :
  existsb is_swap_heading (load_section info out) =
  existsb is_swap_heading out.
Proof.
  unfold load_section. destruct (info !! "load_average") as [[]|];
    rewrite ?existsb_append; cbn [is_swap_heading]; rewrite ?orb_false_r;
    reflexivity.
Qed.

Lemma display_info_swap (info : dict) :
  existsb is_swap_heading (fst (display_info info heading)) =
  match info !! "swap_total_gb" with
  | Some total =>
      match value_gt total (Fin 0) with
      | Ok shown => shown
      | Raise _ => false
      end
  | None => false
  end.
Proof.
  unfold display_info.
  match goal with
  | |- context [swap_section info ?o] =>
      set (out := o);
      assert (Hout : existsb is_swap_heading out = false)
  end.
  { unfold out.
    repeat first [ rewrite print_field_no_swap
                 | rewrite existsb_append; cbn [is_swap_heading];
                   rewrite ?orb_false_r ].
    reflexivity. }
  unfold swap_section.
  destruct (info !! "swap_total_gb") as [total|]; cbn [fst].
  2: { now rewrite load_section_no_swap, process_section_no_swap. }
  destruct (value_gt total (Fin 0)) as [[|]|e]; cbn [fst]; try exact Hout.
  2: { now rewrite load_section_no_swap, process_section_no_swap. }
  destruct (getitem info "swap_used_gb") as [used|e]; cbn [fst].
  2: { rewrite !existsb_append, Hout. reflexivity. }
  destruct (getitem info "swap_percent") as [percent|e]; cbn [fst].
  2: { rewrite !existsb_append, Hout. reflexivity. }
  rewrite load_section_no_swap, process_section_no_swap.
  rewrite !existsb_append, Hout. reflexivity.
Qed.

(** X21: the swap section is printed exactly when psutil is there and
    reports a swap total that rounds to more than 0.00 GB, that is more than
    1024^3 / 200 bytes. Without psutil it is never printed. *)
Theorem swap_section_shown (self : SystemMonitor) (h : host) :
  exists lines outcome,
    display_detailed_system_status self h = Some (lines, outcome) /\
    existsb is_swap_heading lines =
    match psutil_processes h, psutil_snapshot h with
    | Some _, Ok raw => Zpos gib <? 200 * swap_total raw
    | _, _ => false
    end.
Proof.
  destruct (display_outcome self h) as [lines Hrun].
  exists lines. eexists. split; [exact Hrun|].
  unfold display_detailed_system_status in Hrun.
  destruct (get_detailed_system_status self h) as [info|e] eqn:Hinfo.
  2: { injection Hrun as <-.
       assert (Hfalse : existsb is_swap_heading heading = false) by reflexivity.
       rewrite Hfalse.
       unfold get_detailed_system_status, PSUTIL_AVAILABLE in Hinfo.
       destruct (psutil_processes h); [discriminate | reflexivity]. }
  unfold get_detailed_system_status, PSUTIL_AVAILABLE in Hinfo.
  destruct (psutil_processes h) as [procs|].
  - injection Hinfo as <-.
    destruct (psutil_snapshot h) as [raw|e] eqn:Hraw.
    + destruct (psutil_info_fields h raw Hraw) as (Ht & _ & _ & _ & Hc & Hl).
      rewrite (is_empty_dict_false _ _ _ Ht) in Hrun.
      unfold shape_ok in Hrun. rewrite Hc, Hl in Hrun. cbn [andb] in Hrun.
      assert (Hlines : lines = fst (display_info (_get_system_info_psutil h) heading)).
      { destruct (display_info _ heading). now injection Hrun as <- _. }
      rewrite Hlines, display_info_swap, Ht. cbn [value_gt as_number bind].
      apply rounded_size_positive.
    + unfold _get_system_info_psutil in Hrun. rewrite Hraw in Hrun.
      rewrite is_empty_dict_empty in Hrun. now injection Hrun as <-.
  - destruct (fallback_info_lookup self h info Hinfo) as [Hsys _].
    rewrite (is_empty_dict_false _ _ _ Hsys) in Hrun.
    rewrite (fallback_info_shape self h info Hinfo) in Hrun.
    assert (Hlines : lines = fst (display_info info heading)).
    { destruct (display_info _ heading). now injection Hrun as <- _. }
    rewrite Hlines, display_info_swap.
    now rewrite (fallback_info_absent self h info "swap_total_gb" Hinfo) by tauto.
Qed.

(** ** The display: the text for no snapshot *)




(** ** The display: the order of the states *)



















(** ** setup.py: the requirements *)

Lemma lstrip_by_head (p : ascii -> bool) (s : string) c t :
  Str.lstrip_by p s = String c t -> p c = false.
Proof.
  induction s as [|d s IH]; cbn [Str.lstrip_by]; [discriminate|].
  destruct (p d) eqn:E; [exact IH|]. now intros [= <- _].
Qed.

Lemma rstrip_by_idempotent (p : ascii -> bool) (s : string) :
  Str.rstrip_by p (Str.rstrip_by p s) = Str.rstrip_by p s.
Proof.
  induction s as [|c s IH]; [reflexivity|]. cbn [Str.rstrip_by].
  destruct (p c && Str.is_empty (Str.rstrip_by p s)) eqn:E; [reflexivity|].
  cbn [Str.rstrip_by]. now rewrite IH, E.
Qed.

Lemma strip_by_idempotent (p : ascii -> bool) (s : string) :
  Str.strip_by p (Str.strip_by p s) = Str.strip_by p s.
Proof.
  unfold Str.strip_by.
  destruct (Str.lstrip_by p s) as [|c t] eqn:E; [reflexivity|].
  apply lstrip_by_head in E.
  assert (Hr : Str.rstrip_by p (String c t) = String c (Str.rstrip_by p t))
    by (cbn [Str.rstrip_by]; now rewrite E).
  rewrite Hr. cbn [Str.lstrip_by]. rewrite E, <- Hr.
  apply rstrip_by_idempotent.
Qed.

Lemma strip_keeps_first (line : string) :
  Str.startswith "#" (Str.strip line) = true ->
  Str.startswith "#" line = false ->
  exists c rest, line = String c rest /\ Str.is_space c = true.
Proof.
  destruct line as [|c rest]; [discriminate|].
  intros Hr Hline. exists c, rest. split; [reflexivity|].
  destruct (Str.is_space c) eqn:E; [reflexivity|].
  unfold Str.strip, Str.strip_by in Hr. cbn [Str.lstrip_by] in Hr.
  rewrite E in Hr. cbn [Str.rstrip_by] in Hr. rewrite E in Hr.
  cbn [andb] in Hr. unfold Str.startswith in *. cbn [String.prefix] in *.
  destruct (ascii_dec "#" c); [destruct rest; discriminate Hline|].
  discriminate Hr.
Qed.

Lemma requirements_In (lines : list string) (r : string) :
  In r (Setup.requirements lines) <->
  exists line, In line lines /\ Setup.keeps line = true /\ r = Str.strip line.
Proof.
  unfold Setup.requirements. rewrite in_map_iff. split.
  - intros (line & <- & Hin). apply List.filter_In in Hin as [Hin Hk]. eauto.
  - intros (line & Hin & Hk & ->). exists line. split; [reflexivity|].
    apply List.filter_In. now split.
Qed.

(** X23: every entry of [requirements] in setup.py is a line of
    requirements.txt without the white space at its ends, is not empty and
    has no white space left at either end. The comment test reads the line
    before it is stripped: a line whose first character is [#] gives no
    entry, and an entry that starts with [#] comes from a line that starts
    with white space. *)
Theorem requirements_entries (lines : list string) (r : string) :
  In r (Setup.requirements lines) ->
  r <> "" /\ Str.strip r = r /\
  exists line,
    In line lines /\ r = Str.strip line /\
    Str.startswith "#" line = false /\
    (Str.startswith "#" r = true ->
     exists c rest, line = String c rest /\ Str.is_space c = true).
Proof.
  intros Hin. apply requirements_In in Hin as (line & Hin & Hk & ->).
  unfold Setup.keeps in Hk. apply andb_true_iff in Hk as [Hne Hc].
  apply negb_true_iff in Hne, Hc.
  split; [now destruct (Str.strip line)|].
  split; [apply strip_by_idempotent|].
  exists line. repeat split; try assumption.
  intros Hr. now apply strip_keeps_first.
Qed.

(** The indented comment of the sample is an entry. *)
Lemma requirements_entries_example :
  Setup.requirements requirements_sample =
    ["psutil>=5.8.0"; "# indented"; "colorama"] /\
  "# indented" <> "" /\ Str.strip "# indented" = "# indented" /\
  exists line,
    In line requirements_sample /\ "# indented" = Str.strip line /\
    Str.startswith "#" line = false /\
    (Str.startswith "#" "# indented" = true ->
     exists c rest, line = String c rest /\ Str.is_space c = true).
Proof.
  split; [reflexivity|].
  apply (requirements_entries requirements_sample "# indented").
  vm_compute. right; left. reflexivity.
Defined.

(** ** The fallback collectors: a command that cannot be started *)

(** X24: without psutil, on macOS a [vm_stat] that cannot be started, and on
    Windows a [wmic] that cannot be started, end
    [get_detailed_system_status] with the exception of [subprocess.run]: the
    handlers name [CalledProcessError] (and [ValueError] for [wmic]), which
    is not what a missing command raises. The display has printed its
    heading by then and ends with the same exception. *)
Theorem unstartable_command_escapes
    (self : SystemMonitor) (h : host) (e : exn) :
  psutil_processes h = None ->
  (self_system self = "darwin" /\
   vm_stat (fallback h) = Raise e /\ e <> CalledProcessError) \/
  (self_system self = "windows" /\
   wmic (fallback h) = Raise e /\ e <> CalledProcessError /\ e <> ValueError) ->
  get_detailed_system_status self h = Raise e /\
  display_detailed_system_status self h = Some (heading, Some e).
Proof.
  intros Hno Hcmd.
  assert (Hraise : get_detailed_system_status self h = Raise e).
  { unfold get_detailed_system_status, PSUTIL_AVAILABLE. rewrite Hno.
    unfold _get_system_info_fallback.
    destruct Hcmd as [(-> & Hrun & Hne) | (-> & Hrun & Hne & Hne')].
    - replace (String.eqb "darwin" "linux") with false by reflexivity.
      replace (String.eqb "darwin" "darwin") with true by reflexivity.
      unfold _get_macos_system_info. rewrite Hrun.
      unfold try_pass, is_CalledProcessError.
      destruct e; try reflexivity. contradiction.
    - replace (String.eqb "windows" "linux") with false by reflexivity.
      replace (String.eqb "windows" "darwin") with false by reflexivity.
      replace (String.eqb "windows" "windows") with true by reflexivity.
      unfold _get_windows_system_info. rewrite Hrun.
      unfold try_pass, is_wmic_pass.
      destruct e; try reflexivity; contradiction. }
  split; [exact Hraise|].
  unfold display_detailed_system_status. now rewrite Hraise.
Qed.

(** A Mac without psutil and without [vm_stat]. *)
Lemma unstartable_command_example :
  get_detailed_system_status (__init__ (bare_host "Darwin")) (bare_host "Darwin") =
    Raise OSError /\
  display_detailed_system_status (__init__ (bare_host "Darwin")) (bare_host "Darwin") =
    Some (heading, Some OSError).
Proof.
  apply (unstartable_command_escapes _ (bare_host "Darwin") OSError).
  - reflexivity.
  - left. split; [reflexivity|]. split; [reflexivity | discriminate].
Defined.

